(** * BinPy signal generator: a shallow embedding of [BinPy/analog/sig_gen.py]

    The class [SignalGenerator] is embedded method by method.  An instance is
    its attribute dictionary (a finite map from attribute names to values), so
    that reading an attribute that no statement has assigned fails the way it
    does in Python.  Methods are computations in a state-and-exception monad
    over the instance; a raised exception keeps the assignments made before
    it.  The thread body [run] consumes one clock reading per loop iteration
    and records what it publishes and how long it sleeps.

    Numbers.  Python's [int] is [Z].  A Python [float] is an exact rational or
    one of [inf], [-inf], [nan]: arithmetic on finite floats is exact, so
    binary64 rounding, overflow and the sign of zero are outside the model.
    [math.sin] and [math.log10] are taken from a parameter on finite
    arguments; their domain errors are Python's.  The one expression of the
    class whose value depends on rounding, the Triangular and Sawtooth fold,
    is given a second time over binary64 floats in the module [Binary64].

    [10 ** x], used by [set_amplitude], is a parameter as well, and so are
    the two operations of the link registry that the bus-binding methods
    call. *)

From Stdlib Require Import PrimFloat ZArith QArith Qabs Qround Lqa String List.
From stdpp Require Import gmap strings.

Local Open Scope string_scope.
Local Open Scope Q_scope.

(** ** Exceptions and results *)

Inductive exn : Type :=
| Exception (msg : string)
| AttributeError (name : string)
| UnboundLocalError (name : string)
| TypeError
| ValueError
| ZeroDivisionError
| IndexError.

Inductive result (A : Type) : Type :=
| Ok (a : A)
| Raise (e : exn).

Arguments Ok {A} a.
Arguments Raise {A} e.

Definition result_bind {A B} (r : result A) (k : A -> result B) : result B :=
  match r with
  | Ok a => k a
  | Raise e => Raise e
  end.

(** ** Floats *)

Inductive pyfloat : Type :=
| Fin (q : Q)
| PInf
| NInf
| NaN.

Module Float.

(** Finite results are kept in lowest terms. *)
Definition fin (q : Q) : pyfloat := Fin (Qred q).

Definition inf (positive : bool) : pyfloat := if positive then PInf else NInf.

Definition of_Z (z : Z) : pyfloat := Fin (inject_Z z).

Definition is_zero (x : pyfloat) : bool :=
  match x with
  | Fin q => Qeq_bool q 0
  | _ => false
  end.

Definition neg (x : pyfloat) : pyfloat :=
  match x with
  | Fin q => fin (- q)
  | PInf => NInf
  | NInf => PInf
  | NaN => NaN
  end.

Definition add (x y : pyfloat) : pyfloat :=
  match x, y with
  | NaN, _ | _, NaN => NaN
  | Fin a, Fin b => fin (a + b)
  | PInf, NInf | NInf, PInf => NaN
  | PInf, _ | _, PInf => PInf
  | NInf, _ | _, NInf => NInf
  end.

Definition sub (x y : pyfloat) : pyfloat := add x (neg y).

(** An infinity of the given sign times [y]. *)
Definition mul_inf (positive : bool) (y : pyfloat) : pyfloat :=
  match y with
  | NaN => NaN
  | PInf => inf positive
  | NInf => inf (negb positive)
  | Fin b =>
      match b ?= 0 with
      | Eq => NaN
      | Gt => inf positive
      | Lt => inf (negb positive)
      end
  end.

Definition mul (x y : pyfloat) : pyfloat :=
  match x, y with
  | NaN, _ | _, NaN => NaN
  | Fin a, Fin b => fin (a * b)
  | PInf, _ => mul_inf true y
  | NInf, _ => mul_inf false y
  | _, PInf => mul_inf true x
  | _, NInf => mul_inf false x
  end.

(** [x / y]: a zero divisor raises, whatever the dividend. *)
Definition div (x y : pyfloat) : result pyfloat :=
  if is_zero y then Raise ZeroDivisionError
  else Ok match x, y with
          | NaN, _ | _, NaN => NaN
          | Fin a, Fin b => fin (a / b)
          | Fin _, _ => Fin 0
          | PInf, Fin _ => mul_inf true y
          | NInf, Fin _ => mul_inf false y
          | _, _ => NaN
          end.

(** [x % y]: the remainder takes the sign of the divisor. *)
Definition mod_ (x y : pyfloat) : result pyfloat :=
  if is_zero y then Raise ZeroDivisionError
  else Ok match x, y with
          | NaN, _ | _, NaN => NaN
          | PInf, _ | NInf, _ => NaN
          | Fin a, Fin b => fin (a - b * inject_Z (Qfloor (a / b)))
          | Fin a, PInf => if Qle_bool 0 a then Fin a else PInf
          | Fin a, NInf => if Qle_bool a 0 then Fin a else NInf
          end.

Definition abs (x : pyfloat) : pyfloat :=
  match x with
  | Fin q => fin (Qabs q)
  | PInf | NInf => PInf
  | NaN => NaN
  end.

(** Ordering; [None] when an operand is [nan]. *)
Definition cmp (x y : pyfloat) : option comparison :=
  match x, y with
  | NaN, _ | _, NaN => None
  | Fin a, Fin b => Some (a ?= b)
  | PInf, PInf | NInf, NInf => Some Eq
  | PInf, _ | _, NInf => Some Gt
  | NInf, _ | _, PInf => Some Lt
  end.

Definition lt (x y : pyfloat) : bool :=
  match cmp x y with Some Lt => true | _ => false end.
Definition le (x y : pyfloat) : bool :=
  match cmp x y with Some Lt | Some Eq => true | _ => false end.
Definition gt (x y : pyfloat) : bool := lt y x.
Definition ge (x y : pyfloat) : bool := le y x.
Definition eq (x y : pyfloat) : bool :=
  match cmp x y with Some Eq => true | _ => false end.
Definition ne (x y : pyfloat) : bool := negb (eq x y).

End Float.

(** The platform's [math] functions on finite arguments. *)
Record Libm : Type := {
  sin : Q -> Q;
  log10 : Q -> Q;
}.

(** [math.pi], the binary64 constant. *)
Definition math_pi : pyfloat := Fin (884279719003555 # 281474976710656).

Definition math_sin (lm : Libm) (x : pyfloat) : result pyfloat :=
  match x with
  | Fin q => Ok (Float.fin (sin lm q))
  | NaN => Ok NaN
  | PInf | NInf => Raise ValueError
  end.

Definition math_log10 (lm : Libm) (x : pyfloat) : result pyfloat :=
  match x with
  | Fin q => if Qle_bool q 0 then Raise ValueError else Ok (Float.fin (log10 lm q))
  | PInf => Ok PInf
  | NaN => Ok NaN
  | NInf => Raise ValueError
  end.

(** ** Values *)

(** Modelled from the spec: the bus class lives outside [sig_gen.py].  A bus
    is a handle exposing a terminal count, an analog capability flag and a
    voltage per terminal. *)
Record Bus : Type := {
  width : nat;
  analog : bool;
  voltages : list pyfloat;
}.

(** [Bus(n)]: [n] terminals at rest. *)
Definition Bus_new (n : nat) : Bus :=
  {| width := n; analog := false; voltages := replicate n (Fin 0) |}.

(** [bus.set_type(analog=True)] *)
Definition Bus_set_analog (b : Bus) : Bus :=
  {| width := width b; analog := true; voltages := voltages b |}.

(** [float(bus[i])] *)
Definition Bus_voltage (b : Bus) (i : nat) : result pyfloat :=
  match nth_error (voltages b) i with
  | Some v => Ok v
  | None => Raise IndexError
  end.

(** [bus.set_voltage_all(v0, v1)] on a two-terminal bus. *)
Definition Bus_set_voltage_all (b : Bus) (v0 v1 : pyfloat) : Bus :=
  {| width := width b; analog := analog b; voltages := [v0; v1] |}.

(** Modelled from the spec: a bus counts as true when its first terminal is
    HIGH, that is carries a nonzero level. *)
Definition Bus_high (b : Bus) : bool :=
  match nth_error (voltages b) 0 with
  | Some v => negb (Float.is_zero v)
  | None => false
  end.

(** Numbers and [None]: what a sequence may hold. *)
Inductive atom : Type :=
| AInt (z : Z)
| AFloat (x : pyfloat)
| ABool (b : bool)
| ANone.

Inductive value : Type :=
| VAtom (a : atom)
| VList (xs : list atom)
| VTuple (xs : list atom)
| VBus (b : Bus).

Coercion VAtom : atom >-> value.

(** The number an atom denotes in arithmetic and comparisons. *)
Definition num_of (a : atom) : option pyfloat :=
  match a with
  | AInt z => Some (Float.of_Z z)
  | AFloat x => Some x
  | ABool b => Some (Float.of_Z (if b then 1 else 0))
  | ANone => None
  end.

Definition value_num (v : value) : option pyfloat :=
  match v with
  | VAtom a => num_of a
  | _ => None
  end.

(** [float(v)], and the coercion of an operand of [+ - * / %]. *)
Definition py_float (v : value) : result pyfloat :=
  match value_num v with
  | Some x => Ok x
  | None => Raise TypeError
  end.

(** [bool(v)] *)
Definition py_bool (v : value) : bool :=
  match v with
  | VAtom (AInt z) => negb (z =? 0)%Z
  | VAtom (AFloat x) => negb (Float.is_zero x)
  | VAtom (ABool b) => b
  | VAtom ANone => false
  | VList xs | VTuple xs => match xs with [] => false | _ => true end
  | VBus b => Bus_high b
  end.

(** [type(v) in [list, tuple]] *)
Definition type_in_list_tuple (v : value) : bool :=
  match v with
  | VList _ | VTuple _ => true
  | _ => false
  end.

(** Ordering of two atoms: numbers compare by value, [None] is unordered. *)
Definition py_compare (op : pyfloat -> pyfloat -> bool) (a b : atom) : result bool :=
  match num_of a, num_of b with
  | Some x, Some y => Ok (op x y)
  | _, _ => Raise TypeError
  end.

Definition py_lt : atom -> atom -> result bool := py_compare Float.lt.
Definition py_le : atom -> atom -> result bool := py_compare Float.le.
Definition py_gt : atom -> atom -> result bool := py_compare Float.gt.
Definition py_ge : atom -> atom -> result bool := py_compare Float.ge.

(** [a == b] *)
Definition py_eq (a b : value) : bool :=
  match value_num a, value_num b with
  | Some x, Some y => Float.eq x y
  | _, _ =>
      match a, b with
      | VAtom ANone, VAtom ANone => true
      | _, _ => false
      end
  end.

(** [v in [c0, c1, ...]] *)
Definition py_in (v : value) (cs : list value) : bool :=
  existsb (py_eq v) cs.

(** ** The instance and its monad *)

Inductive event : Type :=
| Publish (signal ground : pyfloat)
| Sleep (seconds : pyfloat).

Record state : Type := {
  dict : gmap string value;
  log : list event;
}.

Definition M (A : Type) : Type := state -> result A * state.

Definition ret {A} (a : A) : M A := fun s => (Ok a, s).

Definition bind {A B} (m : M A) (k : A -> M B) : M B :=
  fun s =>
    match m s with
    | (Ok a, s') => k a s'
    | (Raise e, s') => (Raise e, s')
    end.

Definition raise {A} (e : exn) : M A := fun s => (Raise e, s).

Definition lift {A} (r : result A) : M A := fun s => (r, s).

Definition getattr (name : string) : M value :=
  fun s =>
    match dict s !! name with
    | Some v => (Ok v, s)
    | None => (Raise (AttributeError name), s)
    end.

Definition setattr (name : string) (v : value) : M unit :=
  fun s => (Ok tt, {| dict := <[name := v]> (dict s); log := log s |}).

Definition emit (e : event) : M unit :=
  fun s => (Ok tt, {| dict := dict s; log := log s ++ [e] |}).

Definition when (c : bool) (m : M unit) : M unit :=
  if c then m else ret tt.

Declare Scope py_scope.
Delimit Scope py_scope with py.
Notation "'let*' x ':=' m 'in' k" := (bind m (fun x => k))
  (at level 10, x pattern, m at level 100, k at level 200) : py_scope.
Notation "m ';;' k" := (bind m (fun _ => k))
  (at level 100, k at level 200, right associativity) : py_scope.
Local Open Scope py_scope.

(** Sequence operations used by the setters. *)

Definition py_len (v : value) : result nat :=
  match v with
  | VList xs | VTuple xs => Ok (length xs)
  | _ => Raise TypeError
  end.

(** [v[i]] *)
Definition getitem (v : value) (i : nat) : result atom :=
  match v with
  | VList xs | VTuple xs =>
      match nth_error xs i with
      | Some a => Ok a
      | None => Raise IndexError
      end
  | _ => Raise TypeError
  end.

(** [v[i] = a]: only a list supports item assignment. *)
Definition setitem (v : value) (i : nat) (a : atom) : result value :=
  match v with
  | VList xs => if (i <? length xs)%nat then Ok (VList (<[i := a]> xs)) else Raise IndexError
  | _ => Raise TypeError
  end.

(** [tuple(v)] *)
Definition py_tuple (v : value) : result value :=
  match v with
  | VList xs | VTuple xs => Ok (VTuple xs)
  | _ => Raise TypeError
  end.

(** The argument itself when [type(v) in [int, float]]: the exact type, so
    [bool] does not pass. *)
Definition int_or_float (v : value) : option atom :=
  match v with
  | VAtom (AInt z) => Some (AInt z)
  | VAtom (AFloat x) => Some (AFloat x)
  | _ => None
  end.

(** ** The class *)

Module SignalGenerator.

Definition AMPL_MIN : atom := AFloat (Fin 0).
Definition AMPL_MAX : atom := AFloat (Fin 10).
Definition FREQ_MIN : atom := AFloat (Fin (1 # 10)).
Definition FREQ_MAX : atom := AInt 1000000000.

Definition NO_MOD : atom := AInt 0.
Definition AM_MOD : atom := AInt 1.
Definition FM_MOD : atom := AInt 2.

Definition SIN : atom := AInt 0.
Definition SQUARE : atom := AInt 1.
Definition RAMP : atom := AInt 2.
Definition TRIANGULAR : atom := AInt 3.
Definition SAWTOOTH : atom := AInt 4.
Definition TTL : atom := AInt 5.

(** The dictionary [FREQ_RANGE], in the order of its keys 0 to 7. *)
Definition FREQ_RANGE : list (atom * atom) :=
  [ (AFloat (Fin (1 # 10)), AInt 10);
    (AInt 10, AInt 100);
    (AInt 100, AInt 1000);
    (AInt 1000, AInt 10000);
    (AInt 10000, AInt 100000);
    (AInt 100000, AInt 1000000);
    (AInt 1000000, AInt 10000000);
    (AInt 10000000, AInt 1000000000) ].

(** The local variables of [run] that live across loop iterations;
    [voltage] is unbound until a waveform branch assigns it. *)
Record locals : Type := {
  cur_time_offset : pyfloat;
  old_time_offset : pyfloat;
  voltage : option pyfloat;
}.

Section Methods.

Variable lm : Libm.

(** *** Properties *)

Definition frequency : M pyfloat :=
  let* v := getattr "_frequency" in lift (py_float v).

Definition time_period : M pyfloat :=
  let* v := getattr "_time_period" in lift (py_float v).

Definition attenuation : M pyfloat :=
  let* v := getattr "_attenuation" in lift (py_float v).

Definition amplitude : M pyfloat :=
  let* v := getattr "_amplitude" in lift (py_float v).

Definition offset : M pyfloat :=
  let* v := getattr "_offset" in lift (py_float v).

Definition type : M pyfloat :=
  let* v := getattr "_type" in lift (py_float v).

Definition enabled : M bool :=
  let* v := getattr "_enable" in ret (py_bool v).

Definition disabled : M bool :=
  let* e := enabled in ret (negb e).

Definition frequency_range : M value :=
  getattr "_frequency_range".

Definition SAMPLING_TIME_INTERVAL : M pyfloat :=
  let* v := getattr "_time_period" in
  let* p := lift (py_float v) in
  lift (Float.div p (Float.of_Z 500)).

(** *** Setters *)

Definition set_amplitude_exact (ampl : value) : M unit :=
  match int_or_float ampl with
  | None => raise (Exception "ERROR: Amplitude can only be a float ( or int ) value.")
  | Some a =>
      let* low := lift (py_le a AMPL_MIN) in
      when low (setattr "_amplitude" (AInt 0);; setattr "_attenuation" (AInt 0));;
      let* high := lift (py_ge a AMPL_MAX) in
      when high (setattr "_amplitude" (AInt 10);; setattr "_attenuation" (AInt 0));;
      let* x := lift (py_float a) in
      let* r := lift (Float.div x (Float.of_Z 10)) in
      let* l := lift (math_log10 lm r) in
      setattr "_attenuation" (AFloat (Float.mul (Float.of_Z 20) l));;
      let* x := lift (py_float a) in
      setattr "_amplitude" (AFloat x)
  end.

Definition set_attenuation (attenuation : value) : M unit :=
  match int_or_float attenuation with
  | None => raise (Exception "ERROR: Attenuation can only be a float ( or int ) value.")
  | Some a =>
      let* negative := lift (py_lt a (AInt 0)) in
      if negative then raise (Exception "ERROR: Only positive values can be given")
      else setattr "_attenuation" a
  end.

Definition set_frequency_range (range_tuple : value) : M value :=
  if negb (type_in_list_tuple range_tuple)
  then raise (Exception "ERROR: Invalid input. Input can be specified only as a list or a tuple")
  else
    let* n := lift (py_len range_tuple) in
    if negb (n =? 2)%nat
    then raise (Exception "ERROR: The length of the frequency range tuple is not 2")
    else
      let* lo := lift (getitem range_tuple 0) in
      let* hi := lift (getitem range_tuple 1) in
      let* inverted := lift (py_gt lo hi) in
      if inverted
      then raise (Exception "ERROR: Low frequency limit is higher than the High frequency limit")
      else
        let* lo := lift (getitem range_tuple 0) in
        let* low := lift (py_lt lo FREQ_MIN) in
        let* range_tuple :=
          (if low then lift (setitem range_tuple 0 FREQ_MIN) else ret range_tuple) in
        let* hi := lift (getitem range_tuple 1) in
        let* high := lift (py_gt hi FREQ_MAX) in
        let* range_tuple :=
          (if high then lift (setitem range_tuple 1 FREQ_MAX) else ret range_tuple) in
        let* t := lift (py_tuple range_tuple) in
        setattr "_frequency_range" t;;
        ret range_tuple.

(** The [for] loop of [set_frequency_exact]: the first band whose test
    passes, if any. *)
Fixpoint select_range (frequency : atom) (bands : list (atom * atom))
  : result (option (atom * atom)) :=
  match bands with
  | [] => Ok None
  | band :: rest =>
      result_bind (py_le frequency (fst band)) (fun le0 =>
      result_bind (if le0 then py_ge frequency (fst band) else Ok false) (fun hit =>
      if hit then Ok (Some band) else select_range frequency rest))
  end.

Definition set_frequency_exact (frequency : value) : M unit :=
  match int_or_float frequency with
  | None => raise (Exception "ERROR: Invalid Input type. Frequency can only be a float value")
  | Some f =>
      let* low := lift (py_lt f FREQ_MIN) in
      when low (setattr "_frequency" FREQ_MIN);;
      let* high := lift (py_gt f FREQ_MAX) in
      when high (setattr "_frequency" FREQ_MAX);;
      let* x := lift (py_float f) in
      setattr "_frequency" (AFloat x);;
      let* band := lift (select_range f FREQ_RANGE) in
      match band with
      | Some (lo, hi) => setattr "_frequency_range" (VTuple [lo; hi])
      | None => ret tt
      end;;
      let* fr := getattr "_frequency" in
      if negb (py_eq fr (AInt 0))
      then
        let* fr := getattr "_frequency" in
        let* d := lift (py_float fr) in
        let* p := lift (Float.div (Float.of_Z 1) d) in
        setattr "_time_period" (AFloat p)
      else setattr "_time_period" (AFloat PInf)
  end.

Definition set_type (typ : value) : M unit :=
  if py_in typ [VAtom (AInt 0); VAtom (AInt 1); VAtom (AInt 2);
                VAtom (AInt 3); VAtom (AInt 4); VAtom (AInt 5)]
  then setattr "_type" typ
  else raise (Exception "ERROR: Invalid input. Please give a numerical value between 0 and 5 ( both inclusive ) ").

Definition set_offset (offset : value) : M unit :=
  match int_or_float offset with
  | None => raise (Exception "ERROR: Offset can be a float ( or int value ) withing the specified range only.")
  | Some o =>
      let* above := lift (py_gt o AMPL_MAX) in
      let* outside :=
        (if above then ret true else lift (py_lt o (AFloat (Float.neg (Fin 10))))) in
      if outside
      then raise (Exception "ERROR: Invalid offset value. Specify offset within the range")
      else
        let* x := lift (py_float o) in
        setattr "_offset" (AFloat x)
  end.

Definition set_modulation_type (mod_type : value) : M unit :=
  if negb (py_in mod_type [VAtom (AInt 0); VAtom (AInt 1); VAtom (AInt 2)])
  then raise (Exception "ERROR: Invalid input for modulation type. Allowed values are 0, 1 or 2")
  else setattr "_mod_type" mod_type.

Definition kill : M unit := setattr "_exit" (ABool true).

(** *** Construction

    [self.start()] spawns the thread whose body is [run] below. *)
Definition __init__ (typ freq ampl : value) : M unit :=
  setattr "daemon" (ABool true);;
  setattr "enable" (VBus (Bus_new 1));;
  setattr "outputs" (VBus (Bus_set_analog (Bus_new 2)));;
  set_offset (AFloat (Fin 0));;
  setattr "mod_ip" (VBus (Bus_set_analog (Bus_new 2)));;
  set_modulation_type (AInt 0);;
  set_type typ;;
  setattr "_frequency" (AFloat (Fin 1000));;
  set_frequency_exact freq;;
  setattr "_amplitude" (AFloat (Fin 1));;
  set_amplitude_exact ampl;;
  setattr "_exit" (ABool false).

(** *** The thread body, [run] *)

(** [float(self.mod_ip[i])] *)
Definition read_terminal (name : string) (i : nat) : M pyfloat :=
  let* v := getattr name in
  match v with
  | VBus b => lift (Bus_voltage b i)
  | _ => raise TypeError
  end.

(** [self.outputs.set_voltage_all(v, 0)]: the write to the output bus is
    also recorded in the log. *)
Definition publish (v : pyfloat) : M unit :=
  let* o := getattr "outputs" in
  match o with
  | VBus b =>
      setattr "outputs" (VBus (Bus_set_voltage_all b v (Float.of_Z 0)));;
      emit (Publish v (Float.of_Z 0))
  | _ => raise TypeError
  end.

(** [time.sleep(d)] *)
Definition sleep (d : pyfloat) : M unit := emit (Sleep d).

Definition bound (name : string) (v : option pyfloat) : M pyfloat :=
  match v with
  | Some x => ret x
  | None => raise (UnboundLocalError name)
  end.

(** The FM block: the pair [(freq, time_p)]. *)
Definition modulated_frequency (m_t : pyfloat) : M (value * value) :=
  let* mt := getattr "_mod_type" in
  if py_eq mt (AInt 2)
  then
    let* f := getattr "_frequency" in
    let* f := lift (py_float f) in
    let freq := Float.add f m_t in
    if Float.ne freq (Float.of_Z 0)
    then
      let* p := lift (Float.div (Float.of_Z 1) freq) in
      ret (VAtom (AFloat freq), VAtom (AFloat p))
    else ret (VAtom (AFloat freq), VAtom (AFloat PInf))
  else
    let* f := getattr "_frequency" in
    let* p := getattr "_time_period" in
    ret (f, p).

(** [cur_time_offset / time_p] *)
Definition phase (cur_time_offset : pyfloat) (time_p : value) : M pyfloat :=
  let* p := lift (py_float time_p) in
  lift (Float.div cur_time_offset p).

(** The chain of [if (self.type == k)] statements: the value of the local
    [voltage] after it, given its value before. *)
Definition synthesize (freq time_p : value) (cur_time_offset : pyfloat)
    (voltage : option pyfloat) : M (option pyfloat) :=
  let* t := type in
  let* voltage :=
    (if Float.eq t (Float.of_Z 0)
     then
       let* f := lift (py_float freq) in
       let* s := lift (math_sin lm
                   (Float.mul (Float.mul (Float.mul (Float.of_Z 2) math_pi) f) cur_time_offset)) in
       ret (Some (Float.add s (Fin (1 # 2))))
     else ret voltage) in
  let* t := type in
  let* voltage :=
    (if Float.eq t (Float.of_Z 1)
     then
       let* p := lift (py_float time_p) in
       let* half := lift (Float.div p (Float.of_Z 2)) in
       ret (Some (if Float.lt cur_time_offset half then Float.of_Z 1 else Float.of_Z 0))
     else ret voltage) in
  let* t := type in
  let* voltage :=
    (if Float.eq t (Float.of_Z 2)
     then let* x := phase cur_time_offset time_p in ret (Some x)
     else ret voltage) in
  let* t3 := type in
  let* t4 := (if Float.eq t3 (Float.of_Z 3) then ret t3 else type) in
  let* voltage :=
    (if Float.eq t3 (Float.of_Z 3) || Float.eq t4 (Float.of_Z 4)
     then
       let* x := phase cur_time_offset time_p in
       let* y := phase cur_time_offset time_p in
       ret (Some (Float.mul (Float.of_Z 2)
                    (Float.sub x (Float.add y (Fin (1 # 2))))))
     else ret voltage) in
  let* t := type in
  let* voltage :=
    (if Float.eq t (Float.of_Z 3)
     then let* v := bound "voltage" voltage in ret (Some (Float.abs v))
     else ret voltage) in
  let* t := type in
  if Float.eq t (Float.of_Z 4)
  then let* v := bound "voltage" voltage in ret (Some (Float.add v (Float.of_Z 1)))
  else ret voltage.

(** The AM block. *)
Definition modulate (m_t : pyfloat) (voltage : option pyfloat) : M (option pyfloat) :=
  let* mt := getattr "_mod_type" in
  if py_eq mt (AInt 1)
  then
    let* c_t := bound "voltage" voltage in
    ret (Some (Float.mul (Float.add (Float.of_Z 1) m_t) c_t))
  else ret voltage.

(** The statements before the loop. *)
Definition run_enter (now : pyfloat) : M locals :=
  let* p := getattr "_time_period" in
  let* p := lift (py_float p) in
  let* cur := lift (Float.mod_ now p) in
  let* p := getattr "_time_period" in
  let* p := lift (py_float p) in
  ret {| cur_time_offset := cur; old_time_offset := Float.sub cur p; voltage := None |}.

(** One pass through the loop body; [now] is what [time.time()] returns. *)
Definition run_iteration (now : pyfloat) (l : locals) : M locals :=
  let* p := getattr "_time_period" in
  let* p := lift (py_float p) in
  let* cur := lift (Float.mod_ now p) in
  let* threshold := SAMPLING_TIME_INTERVAL in
  if Float.ge (Float.abs (Float.sub cur (old_time_offset l))) threshold
  then
    let* m0 := read_terminal "mod_ip" 0 in
    let* m1 := read_terminal "mod_ip" 1 in
    let m_t := Float.sub m0 m1 in
    let* (freq, time_p) := modulated_frequency m_t in
    let* v := synthesize freq time_p cur (voltage l) in
    let* v := modulate m_t v in
    let* x := bound "voltage" v in
    let* a := getattr "_amplitude" in
    let* a := lift (py_float a) in
    let* o := getattr "_offset" in
    let* o := lift (py_float o) in
    publish (Float.add (Float.mul x a) o);;
    let* d := SAMPLING_TIME_INTERVAL in
    sleep d;;
    ret {| cur_time_offset := cur; old_time_offset := cur; voltage := v |}
  else
    ret {| cur_time_offset := cur; old_time_offset := old_time_offset l;
           voltage := voltage l |}.

(** The loop, run for as many iterations as there are clock readings. *)
Fixpoint run_loop (clock : list pyfloat) (l : locals) : M locals :=
  match clock with
  | [] => ret l
  | now :: rest =>
      let* stop := getattr "_exit" in
      if py_bool stop then ret l
      else
        let* l := run_iteration now l in
        run_loop rest l
  end.

Definition run (clock : list pyfloat) : M unit :=
  match clock with
  | [] => ret tt
  | now :: rest =>
      let* l := run_enter now in
      run_loop rest l;;
      ret tt
  end.

End Methods.

(** *** The knob-style setters *)

(** [a op b] on two numbers; anything else has no such operation. *)
Definition py_arith (op : pyfloat -> pyfloat -> pyfloat) (a b : atom) : result pyfloat :=
  match num_of a, num_of b with
  | Some x, Some y => Ok (op x y)
  | _, _ => Raise TypeError
  end.

Definition set_frequency (percent_range : value) : M unit :=
  match int_or_float percent_range with
  | None => raise (Exception "ERROR: Only int or float values can be passed.")
  | Some p =>
      let* negative := lift (py_lt p (AInt 0)) in
      let* outside := (if negative then ret true else lift (py_gt p (AInt 100))) in
      if outside
      then raise (Exception "ERROR: Only values between 1 to 100 can be passed")
      else
        let* r := getattr "_frequency_range" in
        let* lo := lift (getitem r 0) in
        let* r := getattr "_frequency_range" in
        let* hi := lift (getitem r 1) in
        let* r := getattr "_frequency_range" in
        let* lo' := lift (getitem r 0) in
        let* d := lift (py_arith Float.sub hi lo') in
        let* m := lift (py_arith Float.mul (AFloat d) p) in
        let* f := lift (py_arith Float.add lo (AFloat m)) in
        setattr "_frequency" (AFloat f);;
        let* fr := getattr "_frequency" in
        if negb (py_eq fr (AInt 0))
        then
          let* fr := getattr "_frequency" in
          let* d := lift (py_float fr) in
          let* t := lift (Float.div (Float.of_Z 1) d) in
          setattr "_time_period" (AFloat t)
        else setattr "_time_period" (AFloat PInf)
  end.

Section Knob.

(** [10 ** x] of the platform, on finite arguments other than 0.  In
    [set_amplitude] the quotient [-self._attenuation / 20] is the true
    division of Python 3. *)
Variable pow10 : Q -> Q.

(** [10 ** x] *)
Definition py_pow10 (x : pyfloat) : pyfloat :=
  match x with
  | Fin q => if Qeq_bool q 0 then Fin 1 else Float.fin (pow10 q)
  | PInf => PInf
  | NInf => Fin 0
  | NaN => NaN
  end.

Definition set_amplitude (percent_range : value) : M unit :=
  match int_or_float percent_range with
  | None => raise (Exception "ERROR: Only int or float values can be passed.")
  | Some p =>
      let* negative := lift (py_lt p (AInt 0)) in
      let* outside := (if negative then ret true else lift (py_gt p (AInt 100))) in
      if outside
      then raise (Exception "ERROR: Only values between 1 to 100 can be passed")
      else
        let* a := getattr "_attenuation" in
        let* a := lift (py_float a) in
        let* e := lift (Float.div (Float.neg a) (Float.of_Z 20)) in
        let* full := lift (py_arith Float.mul (AFloat (py_pow10 e)) AMPL_MAX) in
        let* part := lift (py_arith Float.mul (AFloat full) p) in
        let* part := lift (py_arith Float.mul (AFloat part) (AFloat (Fin (1 # 100)))) in
        let* v := lift (py_arith Float.add AMPL_MIN (AFloat part)) in
        setattr "_amplitude" (AFloat v)
  end.

End Knob.

(** *** The bus-binding methods

    Modelled from the spec: the link registry [AutoUpdater] lives outside
    [sig_gen.py]; its two operations are parameters, and taking its lock is
    not modelled. *)

Section Binding.

Variable remove_link : value -> M unit.
Variable add_link : value -> value -> M unit.

Definition set_enable (enable : value) : M unit :=
  match enable with
  | VBus _ =>
      let* e := getattr "_enable" in
      remove_link e;;
      let* e := getattr "_enable" in
      add_link enable e
  | _ => raise (Exception "ERROR: Invalid Enable input. Enable must be a 1-bit Bus or a Connector.")
  end.

(** [bus.width] of an attribute of the instance. *)
Definition width_of (name : string) : M nat :=
  let* v := getattr name in
  match v with
  | VBus b => ret (width b)
  | _ => raise (AttributeError "width")
  end.

Definition set_outputs (outputs : value) : M unit :=
  match outputs with
  | VBus b =>
      let* w := width_of "outputs" in
      if negb (width b =? w)%nat
      then raise (Exception "ERROR: Output width mismatch.")
      else
        let* o := getattr "outputs" in
        remove_link o;;
        let* o := getattr "outputs" in
        add_link o outputs
  | _ => raise (Exception "ERROR: Invalid output Bus")
  end.

Definition set_modulation_input (mod_input : value) : M unit :=
  match mod_input with
  | VBus b =>
      if negb (analog b)
      then raise (Exception "ERROR: Invalid modulation input. The modulation input must be 2 connector analog Bus.")
      else
        let* w := width_of "mod_ip" in
        if negb (width b =? w)%nat
        then raise (Exception "ERROR: The bus must be a 2 connector Bus.")
        else
          let* m := getattr "mod_ip" in
          remove_link m;;
          let* m := getattr "mod_ip" in
          add_link mod_input m
  | _ => raise (Exception "ERROR: Invalid modulation input. The modulation input must be 2 connector analog Bus.")
  end.

End Binding.

End SignalGenerator.

Import SignalGenerator.

(** ** The fold of [run] in binary64

    Lines 524 to 535 of [run] for the types 3 and 4, with the operations of
    IEEE 754 double precision that Python's [float] has. *)

Module Binary64.

Definition fold (cur_time_offset time_p : float) : float :=
  (2 * ((cur_time_offset / time_p) - ((cur_time_offset / time_p) + 0.5)))%float.

Definition triangular (cur_time_offset time_p : float) : float :=
  PrimFloat.abs (fold cur_time_offset time_p).

Definition sawtooth (cur_time_offset time_p : float) : float :=
  (fold cur_time_offset time_p + 1)%float.

(** The period of a 1000 Hz generator, [float(1) / 1000.0], and the offset
    [t % period] of the clock reading [t = 0x1.954fc40002bb1p+30]
    (1700000000.0026667 seconds). *)
Definition period_1kHz : float := (1 / 1000)%float.
Definition offset_1kHz : float := 0x1.5d87cb5449810p-11%float.

End Binary64.

(** ** Vocabulary of the properties *)

(** The instance before [__init__] has run. *)
Definition blank : state := {| dict := ∅; log := [] |}.

(** [SignalGenerator(typ, freq, ampl)]: the outcome of [__init__]. *)
Definition construct (lm : Libm) (typ freq ampl : value) : result unit * state :=
  __init__ lm typ freq ampl blank.

(** A stand-in for the platform's [math] functions, to run examples. *)
Definition sample_libm : Libm :=
  {| sin := fun q => q - q * q * q / 6; log10 := fun q => (q - 1) / (q + 1) |}.

(** What a call returns or raises, and the instance it leaves. *)
Definition outcome {A} (m : M A) (s : state) : result A := fst (m s).
Definition after {A} (m : M A) (s : state) : state := snd (m s).

(** A generator of the given waveform type at the default 1000 Hz and 5 V. *)
Definition generator (lm : Libm) (typ : atom) : state :=
  snd (construct lm typ (AInt 1000) (AInt 5)).

(** The locals of [run] on a 1000 Hz generator that entered the loop at
    clock reading 0, and after an iteration at reading 1/4000 that
    synthesized the value 1. *)
Definition entered : locals :=
  {| cur_time_offset := Fin 0; old_time_offset := Fin (-1 # 1000); voltage := None |}.
Definition sampled : locals :=
  {| cur_time_offset := Fin (1 # 4000); old_time_offset := Fin (1 # 4000);
     voltage := Some (Fin 1) |}.

(** The instance [s] with the bus [b] bound to the attribute [name]. *)
Definition with_bus (name : string) (b : Bus) (s : state) : state :=
  {| dict := <[name := VBus b]> (dict s); log := log s |}.

(** A Ramp generator with AM selected and 0.5 V across the modulation input. *)
Definition am_generator : state :=
  with_bus "mod_ip" {| width := 2; analog := true; voltages := [Fin (1 # 2); Fin 0] |}
    (after (set_modulation_type AM_MOD) (generator sample_libm RAMP)).

(** A one-terminal bus carrying 5 V. *)
Definition high_bus : Bus := {| width := 1; analog := false; voltages := [Fin 5] |}.

(** A computation that reads the instance and leaves it as it was. *)
Definition readonly {A} (m : M A) : Prop := forall s, snd (m s) = s.

(** Two instances that agree on everything but the enable input (the
    attribute [enable] bound by [__init__], and [_enable] read by the
    property [enabled]). *)
Definition same_but_enable (s1 s2 : state) : Prop :=
  log s1 = log s2 /\
  forall k : string, k <> "enable" -> k <> "_enable" -> dict s1 !! k = dict s2 !! k.

(** A computation whose outcome and effects ignore the enable input. *)
Definition ignores_enable {A} (m : M A) : Prop :=
  forall s1 s2, same_but_enable s1 s2 ->
    fst (m s1) = fst (m s2) /\ same_but_enable (snd (m s1)) (snd (m s2)).

(** The voltages published so far. *)
Definition published (s : state) : list pyfloat :=
  omap (fun e => match e with Publish v _ => Some v | Sleep _ => None end) (log s).

(** A property of the instance that a computation maintains, whether it
    returns or raises. *)
Definition preserves {A} (P : state -> Prop) (m : M A) : Prop :=
  forall s, P s -> P (snd (m s)).

(** No statement has assigned [_enable]. *)
Definition enable_unbound (s : state) : Prop := dict s !! "_enable" = None.

(** A stand-in for the platform's [10 ** x], to run examples. *)
Definition sample_pow10 (q : Q) : Q := 1 + q.

(** A link registry that keeps no record, to run examples. *)
Definition no_unlink (_ : value) : M unit := ret tt.
Definition no_link (_ _ : value) : M unit := ret tt.

(** Two instances with the same log that agree on every attribute outside
    [hidden]. *)
Definition same_off (hidden : string -> Prop) (s1 s2 : state) : Prop :=
  log s1 = log s2 /\
  forall k : string, ~ hidden k -> dict s1 !! k = dict s2 !! k.

(** A computation whose outcome and effects ignore the attributes in
    [hidden]. *)
Definition ignores {A} (hidden : string -> Prop) (m : M A) : Prop :=
  forall s1 s2, same_off hidden s1 s2 ->
    fst (m s1) = fst (m s2) /\ same_off hidden (snd (m s1)) (snd (m s2)).

(** The attributes that the thread body reads. *)
Definition run_reads : list string :=
  ["_time_period"; "mod_ip"; "_mod_type"; "_frequency"; "_type";
   "_amplitude"; "_offset"; "outputs"; "_exit"].

(** A log made of samples: a publish with the ground at 0, each followed by
    one sleep of [d] seconds. *)
Inductive samples (d : pyfloat) : list event -> Prop :=
| samples_nil : samples d []
| samples_cons v evs :
    samples d evs -> samples d (Publish v (Float.of_Z 0) :: Sleep d :: evs).

(** The attribute [name] holds the value [v], or is unbound for [None]. *)
Definition holds (name : string) (v : option value) (s : state) : Prop :=
  dict s !! name = v.

(** The band of [FREQ_RANGE] whose lower bound equals [x], if any. *)
Definition band_at (x : pyfloat) : option (atom * atom) :=
  find (fun band => match num_of (fst band) with
                    | Some y => Float.eq x y
                    | None => false
                    end) FREQ_RANGE.

(** [1 / x], or [inf] at 0: the time period that goes with a frequency. *)
Definition period_of (x : pyfloat) : pyfloat :=
  if Float.eq x (Float.of_Z 0) then PInf
  else match Float.div (Float.of_Z 1) x with
       | Ok p => p
       | Raise _ => PInf
       end.


(** A computation that leaves the instance as it was whenever it raises. *)
Definition all_or_nothing {A} (m : M A) : Prop :=
  forall s e, outcome m s = Raise e -> after m s = s.

(** ** The monad *)

Lemma bind_unfold {A B} (m : M A) (k : A -> M B) s :
  bind m k s =
  match m s with
  | (Ok a, s') => k a s'
  | (Raise e, s') => (Raise e, s')
  end.
Proof. reflexivity. Qed.

Lemma bind_Ok {A B} (m : M A) (k : A -> M B) s b s' :
  bind m k s = (Ok b, s') ->
  exists a s1, m s = (Ok a, s1) /\ k a s1 = (Ok b, s').
Proof.
  rewrite bind_unfold. destruct (m s) as [[a|e] s1]; [eauto | discriminate].
Qed.

Lemma lift_Ok {A} (r : result A) s a s' :
  lift r s = (Ok a, s') -> r = Ok a /\ s' = s.
Proof. unfold lift. intros H. injection H as -> ->. auto. Qed.

Lemma getattr_Ok name s v s' :
  getattr name s = (Ok v, s') -> dict s !! name = Some v /\ s' = s.
Proof.
  unfold getattr. destruct (dict s !! name); intros H; [|discriminate].
  injection H as -> ->. auto.
Qed.

Lemma getattr_lookup name s v :
  dict s !! name = Some v -> getattr name s = (Ok v, s).
Proof. unfold getattr. intros ->. reflexivity. Qed.

Lemma setattr_Ok name v s u s' :
  setattr name v s = (Ok u, s') ->
  s' = {| dict := <[name := v]> (dict s); log := log s |}.
Proof. unfold setattr. intros H. injection H as _ <-. reflexivity. Qed.

Lemma ret_Ok {A} (a b : A) s s' : ret a s = (Ok b, s') -> b = a /\ s' = s.
Proof. unfold ret. intros H. injection H as <- <-. auto. Qed.

(** Turns a hypothesis [m s = (Ok a, s')] on a primitive or a sequence into
    facts about its parts. *)
Ltac inv_step :=
  match goal with
  | H : bind _ _ _ = (Ok _, _) |- _ =>
      let a := fresh "a" in let s := fresh "s" in let E := fresh "E" in
      apply bind_Ok in H as (a & s & E & H)
  | H : lift _ _ = (Ok _, _) |- _ => apply lift_Ok in H as [H ->]
  | H : getattr _ _ = (Ok _, _) |- _ => apply getattr_Ok in H as [H ->]
  | H : setattr _ _ _ = (Ok _, _) |- _ => apply setattr_Ok in H; subst
  | H : ret _ _ = (Ok _, _) |- _ => apply ret_Ok in H as [-> ->]
  end.

Lemma bind_Ok_eq {A B} (m : M A) (k : A -> M B) s a s' :
  m s = (Ok a, s') -> bind m k s = k a s'.
Proof. intros H. rewrite bind_unfold, H. reflexivity. Qed.

(** *** Maintained properties *)

Lemma preserves_ret {A} P (a : A) : preserves P (ret a).
Proof. intros s H. exact H. Qed.

Lemma preserves_raise {A} P e : preserves P (@raise A e).
Proof. intros s H. exact H. Qed.

Lemma preserves_lift {A} P (r : result A) : preserves P (lift r).
Proof. intros s H. exact H. Qed.

Lemma preserves_getattr P name : preserves P (getattr name).
Proof. intros s H. unfold getattr. destruct (dict s !! name); exact H. Qed.

Lemma preserves_bind {A B} P (m : M A) (k : A -> M B) :
  preserves P m -> (forall a, preserves P (k a)) -> preserves P (bind m k).
Proof.
  intros Hm Hk s H. rewrite bind_unfold. specialize (Hm s H).
  destruct (m s) as [[a|e] s1]; simpl in *; [apply Hk; exact Hm | exact Hm].
Qed.

Lemma preserves_when P c (m : M unit) : preserves P m -> preserves P (when c m).
Proof. intros H. destruct c; [exact H | apply preserves_ret]. Qed.

Lemma preserves_if {A} P (c : bool) (m1 m2 : M A) :
  preserves P m1 -> preserves P m2 -> preserves P (if c then m1 else m2).
Proof. destruct c; auto. Qed.

Lemma setattr_enable_unbound name v :
  name <> "_enable" -> preserves enable_unbound (setattr name v).
Proof.
  intros Hne s H. unfold enable_unbound, setattr in *. simpl.
  rewrite lookup_insert_ne by exact Hne. exact H.
Qed.

Create HintDb py discriminated.

#[local] Hint Resolve preserves_ret preserves_raise preserves_lift preserves_getattr
  preserves_when preserves_if : py.
#[local] Hint Extern 1 (preserves _ (bind _ _)) => apply preserves_bind; [ | intros ?] : py.
#[local] Hint Extern 1 (preserves enable_unbound (setattr _ _)) =>
  apply setattr_enable_unbound; discriminate : py.
#[local] Hint Extern 2 (preserves _ (match ?x with _ => _ end)) => destruct x : py.

Lemma set_offset_enable_unbound v : preserves enable_unbound (set_offset v).
Proof. unfold set_offset. auto 20 with py. Qed.

Lemma set_modulation_type_enable_unbound v :
  preserves enable_unbound (set_modulation_type v).
Proof. unfold set_modulation_type. auto 20 with py. Qed.

Lemma set_type_enable_unbound v : preserves enable_unbound (set_type v).
Proof. unfold set_type. auto 20 with py. Qed.

Lemma set_frequency_exact_enable_unbound v :
  preserves enable_unbound (set_frequency_exact v).
Proof. unfold set_frequency_exact. auto 30 with py. Qed.

Lemma set_amplitude_exact_enable_unbound lm v :
  preserves enable_unbound (set_amplitude_exact lm v).
Proof. unfold set_amplitude_exact. auto 30 with py. Qed.

#[local] Hint Resolve set_offset_enable_unbound set_modulation_type_enable_unbound
  set_type_enable_unbound set_frequency_exact_enable_unbound
  set_amplitude_exact_enable_unbound : py.

Lemma init_enable_unbound lm typ freq ampl :
  preserves enable_unbound (__init__ lm typ freq ampl).
Proof. unfold __init__. auto 40 with py. Qed.

(** ** Frequency setter *)

(** C1 (fails on the code): on a generator built with the defaults,
    [set_frequency_exact(FREQ_MAX + 1)] returns and leaves the frequency at
    FREQ_MAX + 1, above FREQ_MAX, and [set_frequency_exact(0.01)] leaves it
    at 0.01, below FREQ_MIN. *)
Theorem set_frequency_exact_out_of_range_not_clamped lm :
  outcome (set_frequency_exact (AInt 1000000001)) (generator lm SIN) = Ok tt /\
  outcome frequency (after (set_frequency_exact (AInt 1000000001)) (generator lm SIN))
    = Ok (Fin 1000000001) /\
  py_gt (AFloat (Fin 1000000001)) FREQ_MAX = Ok true /\
  outcome (set_frequency_exact (AFloat (Fin (1 # 100)))) (generator lm SIN) = Ok tt /\
  outcome frequency (after (set_frequency_exact (AFloat (Fin (1 # 100)))) (generator lm SIN))
    = Ok (Fin (1 # 100)) /\
  py_lt (AFloat (Fin (1 # 100))) FREQ_MIN = Ok true.
Proof. vm_compute. repeat split; reflexivity. Qed.

(** The band loop of [set_frequency_exact] selects a band only when the
    frequency is both at most and at least the band's lower bound. *)
Lemma select_range_hit f bands band :
  select_range f bands = Ok (Some band) ->
  In band bands /\ py_le f (fst band) = Ok true /\ py_ge f (fst band) = Ok true.
Proof.
  induction bands as [|b rest IH]; simpl; [discriminate|].
  destruct (py_le f (fst b)) as [[]|] eqn:Hle; simpl; try discriminate.
  - destruct (py_ge f (fst b)) as [[]|] eqn:Hge; simpl; try discriminate.
    + intros H. injection H as <-. auto.
    + intros H. destruct (IH H) as (? & ? & ?). auto.
  - intros H. destruct (IH H) as (? & ? & ?). auto.
Qed.

Lemma select_range_hit_witness :
  select_range (AInt 1000) FREQ_RANGE = Ok (Some (AInt 1000, AInt 10000)) /\
  In (AInt 1000, AInt 10000) FREQ_RANGE /\
  py_le (AInt 1000) (AInt 1000) = Ok true /\
  py_ge (AInt 1000) (AInt 1000) = Ok true.
Proof.
  split; [vm_compute; reflexivity|].
  apply (select_range_hit (AInt 1000) FREQ_RANGE (AInt 1000, AInt 10000)).
  vm_compute. reflexivity.
Defined.

(** What a call of [set_frequency_exact] that returns has done: the frequency
    stored is [float(frequency)] itself (the two saturating assignments are
    overwritten), the time period is its inverse, and the band is either left
    as it was or one whose lower bound equals the frequency. *)
Lemma set_frequency_exact_Ok v s s' :
  set_frequency_exact v s = (Ok tt, s') ->
  exists f x p,
    v = VAtom f /\ py_float v = Ok x /\
    dict s' !! "_frequency" = Some (VAtom (AFloat x)) /\
    dict s' !! "_time_period" = Some (VAtom (AFloat p)) /\
    (if Float.eq x (Float.of_Z 0) then p = PInf
     else Float.div (Float.of_Z 1) x = Ok p) /\
    (dict s' !! "_frequency_range" = dict s !! "_frequency_range" \/
     exists lo hi,
       In (lo, hi) FREQ_RANGE /\ py_le f lo = Ok true /\ py_ge f lo = Ok true /\
       dict s' !! "_frequency_range" = Some (VTuple [lo; hi])).
Proof.
  unfold set_frequency_exact.
  destruct (int_or_float v) as [f|] eqn:Ef; [|discriminate].
  assert (v = VAtom f) as ->.
  { destruct v as [[]| | |]; simpl in Ef; congruence. }
  intros H.
  apply bind_Ok in H as (low & w1 & Hlow & H). apply lift_Ok in Hlow as [Hlow ->].
  apply bind_Ok in H as ([] & st1 & Hs1 & H).
  apply bind_Ok in H as (high & w2 & Hhigh & H). apply lift_Ok in Hhigh as [Hhigh ->].
  apply bind_Ok in H as ([] & st2 & Hs2 & H).
  apply bind_Ok in H as (x & w3 & Hx & H). apply lift_Ok in Hx as [Hx ->].
  apply bind_Ok in H as ([] & st3 & Hs3 & H). apply setattr_Ok in Hs3.
  apply bind_Ok in H as (band & w4 & Hband & H). apply lift_Ok in Hband as [Hband ->].
  apply bind_Ok in H as ([] & st4 & Hs4 & H).
  apply bind_Ok in H as (fr & w5 & Hfr & H). apply getattr_Ok in Hfr as [Hfr ->].
  assert (forall k, k <> "_frequency" -> dict st2 !! k = dict s !! k) as Hframe.
  { intros k Hk.
    assert (dict st1 !! k = dict s !! k) as H1.
    { destruct low; simpl in Hs1;
        [apply setattr_Ok in Hs1; subst st1; simpl; apply lookup_insert_ne; congruence
        |apply ret_Ok in Hs1 as [_ ->]; reflexivity]. }
    destruct high; simpl in Hs2;
      [apply setattr_Ok in Hs2; subst st2; simpl; rewrite lookup_insert_ne by congruence
      |apply ret_Ok in Hs2 as [_ ->]]; exact H1. }
  assert (dict st4 !! "_frequency" = Some (VAtom (AFloat x)) /\
          (dict st4 !! "_frequency_range" = dict s !! "_frequency_range" \/
           exists lo hi,
             In (lo, hi) FREQ_RANGE /\ py_le f lo = Ok true /\ py_ge f lo = Ok true /\
             dict st4 !! "_frequency_range" = Some (VTuple [lo; hi]))) as [Hf4 Hr4].
  { subst st3. destruct band as [[lo hi]|].
    - apply setattr_Ok in Hs4. subst st4. simpl.
      split; [rewrite lookup_insert_ne by discriminate; apply lookup_insert_eq|].
      right. exists lo, hi. destruct (select_range_hit _ _ _ Hband) as (Hin & Hle & Hge).
      repeat split; try assumption. apply lookup_insert_eq.
    - apply ret_Ok in Hs4 as [_ ->]. simpl.
      split; [apply lookup_insert_eq|]. left.
      rewrite lookup_insert_ne by discriminate. apply Hframe. discriminate. }
  rewrite Hf4 in Hfr. injection Hfr as <-.
  change (py_eq (VAtom (AFloat x)) (VAtom (AInt 0))) with (Float.eq x (Float.of_Z 0)) in H.
  exists f, x.
  destruct (Float.eq x (Float.of_Z 0)); simpl in H.
  - apply setattr_Ok in H. subst s'. exists PInf. simpl.
    rewrite lookup_insert_eq, !lookup_insert_ne by discriminate. auto 10.
  - apply bind_Ok in H as (fr & w6 & Hfr & H). apply getattr_Ok in Hfr as [Hfr ->].
    rewrite Hf4 in Hfr. injection Hfr as <-.
    apply bind_Ok in H as (d & w7 & Hd & H). apply lift_Ok in Hd as [Hd ->].
    simpl in Hd. injection Hd as <-.
    apply bind_Ok in H as (p & w8 & Hp & H). apply lift_Ok in Hp as [Hp ->].
    apply setattr_Ok in H. subst s'. exists p. simpl.
    rewrite lookup_insert_eq, !lookup_insert_ne by discriminate. auto 10.
Qed.

Lemma int_or_float_num v f :
  int_or_float v = Some f -> v = VAtom f /\ exists x, num_of f = Some x.
Proof.
  destruct v as [[z|x|b|]| | |]; simpl; intros H; try discriminate;
    injection H as <-; split; try reflexivity; eexists; reflexivity.
Qed.

Lemma select_range_total f x bands :
  num_of f = Some x ->
  Forall (fun band => exists y, num_of (fst band) = Some y) bands ->
  exists r, select_range f bands = Ok r.
Proof.
  intros Hf. induction 1 as [|band rest [y Hy] _ IH]; simpl; [eauto|].
  unfold py_le, py_ge, py_compare. rewrite Hf, Hy. simpl.
  destruct (Float.le x y); simpl; [destruct (Float.ge x y); simpl|]; eauto.
Qed.

Lemma FREQ_RANGE_numeric :
  Forall (fun band : atom * atom => exists y, num_of (fst band) = Some y) FREQ_RANGE.
Proof. repeat constructor; eexists; reflexivity. Qed.

Lemma is_zero_eq x : Float.is_zero x = Float.eq x (Float.of_Z 0).
Proof.
  destruct x as [q| | |]; try reflexivity. unfold Float.is_zero, Float.eq, Float.cmp, Float.of_Z.
  destruct (Qeq_bool q 0) eqn:E.
  - apply Qeq_bool_iff in E. apply Qeq_alt in E. change (inject_Z 0) with 0. rewrite E. reflexivity.
  - destruct (q ?= inject_Z 0) eqn:C; try reflexivity.
    apply Qeq_alt in C. apply Qeq_bool_iff in C. change (inject_Z 0) with 0 in C. congruence.
Qed.

Lemma div_nonzero x y :
  Float.eq y (Float.of_Z 0) = false -> exists p, Float.div x y = Ok p.
Proof. intros H. unfold Float.div. rewrite is_zero_eq, H. eauto. Qed.

(** Every call with an [int] or a [float] returns. *)
Lemma set_frequency_exact_returns v f s :
  int_or_float v = Some f -> outcome (set_frequency_exact v) s = Ok tt.
Proof.
  intros Ef. destruct (int_or_float_num v f Ef) as [-> [x Hx]].
  destruct (select_range_total f x FREQ_RANGE Hx FREQ_RANGE_numeric) as [band Hband].
  unfold outcome, set_frequency_exact. rewrite Ef.
  unfold py_lt, py_gt, py_compare, py_float. simpl value_num. rewrite Hx, Hband. simpl num_of.
  destruct s as [d l].
  destruct (Float.lt x (Fin (1 # 10))), (Float.gt x (Float.of_Z 1000000000)),
    band as [[lo hi]|];
    unfold bind, when, lift, ret, setattr, getattr; simpl;
    repeat (rewrite lookup_insert_eq || rewrite lookup_insert_ne by discriminate);
    change (py_eq (VAtom (AFloat x)) (VAtom (AInt 0))) with (Float.eq x (Float.of_Z 0));
    destruct (Float.eq x (Float.of_Z 0)) eqn:Hz; simpl; try reflexivity;
    repeat (rewrite lookup_insert_eq || rewrite lookup_insert_ne by discriminate);
    simpl; destruct (div_nonzero (Float.of_Z 1) x Hz) as [p ->]; reflexivity.
Qed.


(** C3 (fails on the code): on a generator built with the defaults (1000 Hz,
    band (1000, 10000)), [set_frequency_exact(500)] returns with the time
    period 1/500 but leaves the band at (1000, 10000), whose lower bound is
    above 500; and a generator built at 500 Hz has no [_frequency_range]
    at all. *)
Theorem set_frequency_exact_band_not_updated lm :
  outcome (set_frequency_exact (AInt 500)) (generator lm SIN) = Ok tt /\
  outcome time_period (after (set_frequency_exact (AInt 500)) (generator lm SIN))
    = Ok (Fin (1 # 500)) /\
  outcome frequency_range (after (set_frequency_exact (AInt 500)) (generator lm SIN))
    = Ok (VTuple [AInt 1000; AInt 10000]) /\
  py_le (AInt 1000) (AInt 500) = Ok false /\
  fst (construct lm SIN (AInt 500) (AInt 5)) = Ok tt /\
  outcome frequency_range (snd (construct lm SIN (AInt 500) (AInt 5)))
    = Raise (AttributeError "_frequency_range").
Proof. vm_compute. repeat split; reflexivity. Qed.

(** ** Amplitude setter *)

Lemma Qle_bool_div10 q : Qle_bool (Qred (q / inject_Z 10)) 0 = Qle_bool q 0.
Proof.
  apply eq_true_iff_eq. rewrite !Qle_bool_iff, Qred_correct.
  change (inject_Z 10) with (10 # 1). unfold Qdiv. change (/ (10 # 1)) with (1 # 10).
  split; intros; lra.
Qed.


(** C2 (fails on the code): [set_amplitude_exact(0)] raises the domain error
    of [math.log10] after the saturating assignments; so does
    [set_amplitude_exact(-1)]; and [set_amplitude_exact(11)] returns with
    the amplitude 11, above AMPL_MAX. *)
Theorem set_amplitude_exact_out_of_range lm :
  outcome (set_amplitude_exact lm (AInt 0)) (generator lm SIN) = Raise ValueError /\
  dict (after (set_amplitude_exact lm (AInt 0)) (generator lm SIN)) !! "_amplitude"
    = Some (VAtom (AInt 0)) /\
  outcome (set_amplitude_exact lm (AInt (-1))) (generator lm SIN) = Raise ValueError /\
  dict (after (set_amplitude_exact lm (AInt (-1))) (generator lm SIN)) !! "_amplitude"
    = Some (VAtom (AInt 0)) /\
  outcome (set_amplitude_exact lm (AInt 11)) (generator lm SIN) = Ok tt /\
  outcome amplitude (after (set_amplitude_exact lm (AInt 11)) (generator lm SIN))
    = Ok (Fin 11) /\
  py_gt (AFloat (Fin 11)) AMPL_MAX = Ok true.
Proof. vm_compute. repeat split; reflexivity. Qed.

(** ** Range setter *)


(** A tuple (low, high) of numbers with [low <= high] is accepted only when
    both edges are within bounds; otherwise the item assignment raises. *)
Lemma set_frequency_range_tuple lo hi x y s :
  num_of lo = Some x -> num_of hi = Some y -> Float.gt x y = false ->
  set_frequency_range (VTuple [lo; hi]) s
  = if Float.lt x (Fin (1 # 10)) || Float.gt y (Float.of_Z 1000000000)
    then (Raise TypeError, s)
    else (Ok (VTuple [lo; hi]),
          {| dict := <["_frequency_range" := VTuple [lo; hi]]> (dict s); log := log s |}).
Proof.
  intros Hx Hy Hgt. unfold set_frequency_range. simpl.
  unfold py_gt, py_lt, py_compare, bind, lift. simpl. rewrite Hx, Hy, Hgt. simpl.
  destruct (Float.lt x (Fin (1 # 10))); simpl; [reflexivity|]. rewrite Hy.
  destruct (Float.gt y (Float.of_Z 1000000000)); reflexivity.
Qed.

(** C7 (fails on the code): a tuple with an out-of-bound edge makes
    [set_frequency_range] raise [TypeError] at the item assignment and store
    nothing, while the same pair given as a list is saturated and stored. *)
Theorem set_frequency_range_tuple_out_of_bound s :
  set_frequency_range (VTuple [AFloat (Fin (1 # 100)); AInt 100]) s
    = (Raise TypeError, s) /\
  set_frequency_range (VTuple [AInt 10; AInt 2000000000]) s
    = (Raise TypeError, s) /\
  set_frequency_range (VList [AFloat (Fin (1 # 100)); AInt 100]) s
    = (Ok (VList [FREQ_MIN; AInt 100]),
       {| dict := <["_frequency_range" := VTuple [FREQ_MIN; AInt 100]]> (dict s);
          log := log s |}).
Proof. repeat split; reflexivity. Qed.

(** ** Properties *)

Lemma readonly_intro {A} (m : M A) : (forall P, preserves P m) -> readonly m.
Proof. intros H s. apply (H (fun s' => s' = s)). reflexivity. Qed.

Ltac solve_readonly := apply readonly_intro; intros ?; auto 40 with py.

(** No property changes the instance, whether it returns or raises. *)
Lemma properties_readonly :
  readonly frequency /\ readonly time_period /\ readonly attenuation /\
  readonly amplitude /\ readonly offset /\ readonly type /\ readonly enabled /\
  readonly disabled /\ readonly frequency_range /\ readonly SAMPLING_TIME_INTERVAL.
Proof.
  unfold frequency, time_period, attenuation, amplitude, offset, type, disabled,
    enabled, frequency_range, SAMPLING_TIME_INTERVAL.
  repeat split; solve_readonly.
Qed.

(** C9 (fails on the code): whatever the arguments, once the constructor has
    returned, reading [enabled] raises [AttributeError] for [_enable], an
    attribute that no statement assigns ([__init__] binds [enable]); reading
    [disabled] raises the same. *)
Theorem enabled_raises_AttributeError lm typ freq ampl s :
  construct lm typ freq ampl = (Ok tt, s) ->
  enabled s = (Raise (AttributeError "_enable"), s) /\
  disabled s = (Raise (AttributeError "_enable"), s).
Proof.
  intros H.
  assert (enable_unbound s) as Hs.
  { pose proof (init_enable_unbound lm typ freq ampl blank) as Hp.
    unfold construct in H. rewrite H in Hp. apply Hp.
    unfold enable_unbound, blank. simpl. apply lookup_empty. }
  unfold enable_unbound in Hs.
  assert (enabled s = (Raise (AttributeError "_enable"), s)) as He.
  { unfold enabled. rewrite bind_unfold. unfold getattr. rewrite Hs. reflexivity. }
  split; [exact He|].
  unfold disabled. rewrite bind_unfold, He. reflexivity.
Qed.

Lemma enabled_raises_AttributeError_witness :
  construct sample_libm SIN (AInt 1000) (AInt 5) = (Ok tt, generator sample_libm SIN) /\
  enabled (generator sample_libm SIN)
    = (Raise (AttributeError "_enable"), generator sample_libm SIN) /\
  disabled (generator sample_libm SIN)
    = (Raise (AttributeError "_enable"), generator sample_libm SIN).
Proof.
  split; [vm_compute; reflexivity|].
  apply (enabled_raises_AttributeError sample_libm SIN (AInt 1000) (AInt 5)).
  vm_compute. reflexivity.
Defined.

(** ** Waveform synthesis *)

Lemma type_lookup s (z : Z) :
  dict s !! "_type" = Some (VAtom (AInt z)) -> type s = (Ok (Float.of_Z z), s).
Proof.
  intros H. unfold type. rewrite (bind_Ok_eq _ _ _ _ _ (getattr_lookup _ _ _ H)).
  reflexivity.
Qed.

(** Decides the closed tests [self.type == k]. *)
Ltac eval_tests :=
  repeat match goal with
    | |- context [Float.eq (Float.of_Z ?a) (Float.of_Z ?b)] =>
        let t := constr:(Float.eq (Float.of_Z a) (Float.of_Z b)) in
        let v := eval vm_compute in t in
        change t with v; cbv iota
    end.

Lemma fin_proper p q : p == q -> Float.fin p = Float.fin q.
Proof. intros H. unfold Float.fin. f_equal. apply Qred_complete. exact H. Qed.

(** [2 * (x - (x + 0.5))] at a finite [x]. *)
Lemma fold_minus_one a :
  Float.mul (Float.of_Z 2) (Float.sub (Fin a) (Float.add (Fin a) (Fin (1 # 2))))
  = Fin (-1).
Proof.
  unfold Float.sub, Float.add, Float.neg, Float.mul, Float.of_Z. simpl.
  change (Fin (-1)) with (Float.fin (-1)). apply fin_proper.
  rewrite !Qred_correct.
  unfold inject_Z. ring.
Qed.

Ltac eval_synthesize H1 H2 :=
  unfold synthesize, bind, bound;
  repeat first [rewrite H1 | rewrite H2 | rewrite fold_minus_one
               | progress eval_tests | progress unfold ret
               | progress cbn [orb negb] | progress cbv beta iota].

Lemma phase_finite q p :
  Float.is_zero p = false -> p <> NaN -> exists a, Float.div (Fin q) p = Ok (Fin a).
Proof.
  intros Hz Hn. unfold Float.div. rewrite Hz.
  destruct p; [eexists; reflexivity | eexists; reflexivity | eexists; reflexivity | congruence].
Qed.

(** C10, amended: when the fold 2 * (x - (x + 0.5)) is evaluated without
    rounding, then for every time offset and every period other than zero and
    nan (an infinite one included) the chain of waveform branches leaves the
    raw voltage at 1 for the Triangular type and at 0 for the Sawtooth type,
    whatever it was before. *)
Theorem triangular_and_sawtooth_constant lm s freq time_p q p v (tri : bool) :
  py_float time_p = Ok p -> Float.is_zero p = false -> p <> NaN ->
  dict s !! "_type" = Some (VAtom (if tri then TRIANGULAR else SAWTOOTH)) ->
  synthesize lm freq time_p (Fin q) v s
  = (Ok (Some (if tri then Fin 1 else Fin 0)), s).
Proof.
  intros Hp Hz Hn Ht.
  destruct (phase_finite q p Hz Hn) as [a Ha].
  assert (phase (Fin q) time_p s = (Ok (Fin a), s)) as Hph.
  { unfold phase, bind, lift. rewrite Hp, Ha. reflexivity. }
  destruct tri.
  - apply (type_lookup s 3) in Ht. eval_synthesize Ht Hph. reflexivity.
  - apply (type_lookup s 4) in Ht. eval_synthesize Ht Hph. reflexivity.
Qed.

(** For the TTL type no waveform branch fires: the local [voltage] keeps the
    value it had, and stays unbound if it was. *)
Lemma synthesize_ttl lm s freq time_p cur v :
  dict s !! "_type" = Some (VAtom TTL) ->
  synthesize lm freq time_p cur v s = (Ok v, s).
Proof.
  intros H. pose proof (type_lookup s 5 H) as Ht.
  eval_synthesize Ht Ht. reflexivity.
Qed.

Lemma triangular_and_sawtooth_constant_witness :
  (py_float (AFloat (Fin (1 # 1000))) = Ok (Fin (1 # 1000)) /\
   Float.is_zero (Fin (1 # 1000)) = false /\ Fin (1 # 1000) <> NaN /\
   dict (generator sample_libm TRIANGULAR) !! "_type" = Some (VAtom TRIANGULAR) /\
   dict (generator sample_libm SAWTOOTH) !! "_type" = Some (VAtom SAWTOOTH)) /\
  synthesize sample_libm (AInt 1000) (AFloat (Fin (1 # 1000))) (Fin (3 # 4000)) None
      (generator sample_libm TRIANGULAR)
    = (Ok (Some (Fin 1)), generator sample_libm TRIANGULAR) /\
  synthesize sample_libm (AInt 1000) (AFloat (Fin (1 # 1000))) (Fin (3 # 4000)) None
      (generator sample_libm SAWTOOTH)
    = (Ok (Some (Fin 0)), generator sample_libm SAWTOOTH).
Proof.
  split; [repeat split; solve [vm_compute; reflexivity | discriminate]|].
  split.
  - apply (triangular_and_sawtooth_constant sample_libm _ _ _ _ (Fin (1 # 1000)) None true);
      [reflexivity | reflexivity | discriminate | vm_compute; reflexivity].
  - apply (triangular_and_sawtooth_constant sample_libm _ _ _ _ (Fin (1 # 1000)) None false);
      [reflexivity | reflexivity | discriminate | vm_compute; reflexivity].
Defined.

(** C10 as stated fails: in binary64, at 1000 Hz and the offset of the
    clock reading 1700000000.0026667, the phase is 0x1.55569c904fc7fp-1, the
    sum phase + 0.5 is rounded, and the fold gives -1 - 2^-52: the Triangular
    raw voltage is 1 + 2^-52 and the Sawtooth one is -2^-52, neither 1 nor
    0. *)
Lemma binary64_fold_is_rounded :
  PrimFloat.eqb Binary64.period_1kHz 0x1.0624dd2f1a9fcp-10%float = true /\
  PrimFloat.eqb (PrimFloat.div Binary64.offset_1kHz Binary64.period_1kHz)
    0x1.55569c904fc7fp-1%float = true /\
  PrimFloat.eqb (Binary64.triangular Binary64.offset_1kHz Binary64.period_1kHz)
    0x1.0000000000001p+0%float = true /\
  PrimFloat.eqb (Binary64.triangular Binary64.offset_1kHz Binary64.period_1kHz)
    1%float = false /\
  PrimFloat.eqb (Binary64.sawtooth Binary64.offset_1kHz Binary64.period_1kHz)
    (-0x1p-52)%float = true /\
  PrimFloat.eqb (Binary64.sawtooth Binary64.offset_1kHz Binary64.period_1kHz)
    0%float = false.
Proof. vm_compute. repeat split; reflexivity. Qed.

(** C4 (fails on the code): a generator built with the TTL type dies in its
    first loop iteration with [UnboundLocalError] for [voltage] and publishes
    nothing, where one built with the Square type publishes the level 1
    scaled by the amplitude at the same clock readings. *)
Theorem ttl_leaves_voltage_unbound lm :
  fst (construct lm TTL (AInt 1000) (AInt 5)) = Ok tt /\
  outcome (run lm [Fin 0; Fin (1 # 4000)]) (generator lm TTL)
    = Raise (UnboundLocalError "voltage") /\
  log (after (run lm [Fin 0; Fin (1 # 4000)]) (generator lm TTL)) = [] /\
  outcome (run lm [Fin 0; Fin (1 # 4000)]) (generator lm SQUARE) = Ok tt /\
  log (after (run lm [Fin 0; Fin (1 # 4000)]) (generator lm SQUARE))
    = [Publish (Fin 5) (Fin 0); Sleep (Fin (1 # 500000))].
Proof. vm_compute. repeat split; reflexivity. Qed.

(** ** The scheduler loop *)

Lemma readonly_Ok {A} (m : M A) s r s' : readonly m -> m s = (r, s') -> s' = s.
Proof. intros Hm H. specialize (Hm s). rewrite H in Hm. exact Hm. Qed.

Lemma run_reads_readonly lm :
  (forall name i, readonly (read_terminal name i)) /\
  (forall m_t, readonly (modulated_frequency m_t)) /\
  (forall freq time_p cur v, readonly (synthesize lm freq time_p cur v)) /\
  (forall m_t v, readonly (modulate m_t v)) /\
  (forall name v, readonly (bound name v)).
Proof.
  unfold read_terminal, modulated_frequency, synthesize, modulate, bound, phase, type.
  repeat split; intros; solve_readonly.
Qed.

Ltac inv_readonly lm :=
  match goal with
  | H : ?m ?s = (_, ?s1) |- _ =>
      is_var s1;
      tryif constr_eq s s1 then fail else
        (let R := fresh "R" in
         assert (R : readonly m)
           by first [apply properties_readonly | apply (run_reads_readonly lm)];
         pose proof (readonly_Ok m s _ s1 R H); subst s1; clear R)
  end.

Lemma publish_Ok v s u s' :
  publish v s = (Ok u, s') ->
  exists b, dict s !! "outputs" = Some (VBus b) /\
    s' = {| dict := <["outputs" := VBus (Bus_set_voltage_all b v (Float.of_Z 0))]> (dict s);
            log := (log s ++ [Publish v (Float.of_Z 0)])%list |}.
Proof.
  unfold publish, emit. intros H. inv_step. inv_step.
  destruct a as [| | |b]; try discriminate.
  inv_step. inv_step. injection H as _ <-. exists b. split; [exact E | reflexivity].
Qed.

Lemma SAMPLING_TIME_INTERVAL_frame s1 s2 :
  dict s1 !! "_time_period" = dict s2 !! "_time_period" ->
  fst (SAMPLING_TIME_INTERVAL s1) = fst (SAMPLING_TIME_INTERVAL s2).
Proof.
  intros H. unfold SAMPLING_TIME_INTERVAL, bind, getattr, lift. rewrite H.
  destruct (dict s2 !! "_time_period") as [v|]; [|reflexivity].
  destruct (py_float v); reflexivity.
Qed.

(** What an iteration that returns has done. *)
Lemma run_iteration_Ok lm now l s l' s' :
  run_iteration lm now l s = (Ok l', s') ->
  exists p cur threshold,
    time_period s = (Ok p, s) /\ Float.mod_ now p = Ok cur /\
    SAMPLING_TIME_INTERVAL s = (Ok threshold, s) /\
    if Float.ge (Float.abs (Float.sub cur (old_time_offset l))) threshold
    then
      exists m0 m1 freq time_p c x a o b,
        read_terminal "mod_ip" 0 s = (Ok m0, s) /\
        read_terminal "mod_ip" 1 s = (Ok m1, s) /\
        modulated_frequency (Float.sub m0 m1) s = (Ok (freq, time_p), s) /\
        synthesize lm freq time_p cur (voltage l) s = (Ok c, s) /\
        modulate (Float.sub m0 m1) c s = (Ok (Some x), s) /\
        amplitude s = (Ok a, s) /\ offset s = (Ok o, s) /\
        dict s !! "outputs" = Some (VBus b) /\
        l' = {| cur_time_offset := cur; old_time_offset := cur; voltage := Some x |} /\
        let out := Float.add (Float.mul x a) o in
        s' = {| dict := <["outputs" := VBus (Bus_set_voltage_all b out (Float.of_Z 0))]> (dict s);
                log := (log s ++ [Publish out (Float.of_Z 0); Sleep threshold])%list |}
    else
      l' = {| cur_time_offset := cur; old_time_offset := old_time_offset l;
              voltage := voltage l |} /\ s' = s.
Proof.
  unfold run_iteration. intros H.
  repeat (first [inv_step | inv_readonly lm]).
  exists a0, a1, a2. split.
  { unfold time_period, bind, lift. rewrite (getattr_lookup _ _ _ E), E0. reflexivity. }
  split; [exact E1|]. split; [exact E2|].
  destruct (Float.ge (Float.abs (Float.sub a1 (old_time_offset l))) a2).
  - repeat (first [inv_step | inv_readonly lm]).
    match goal with H : (let '(_, _) := ?x in _) _ = _ |- _ => destruct x as [freq time_p] end.
    repeat (first [inv_step | inv_readonly lm]).
    match goal with
    | Hb : bound _ ?v _ = (Ok ?x, _) |- _ =>
        destruct v as [x'|]; [|discriminate Hb];
        unfold bound, ret in Hb; injection Hb as ->
    end.
    match goal with
    | Hp : publish _ _ = (Ok _, _) |- _ =>
        apply publish_Ok in Hp as (b & Hout & ->)
    end.
    match goal with
    | Hs : sleep _ _ = (Ok _, _) |- _ =>
        unfold sleep, emit in Hs; injection Hs as _ <-
    end.
    match goal with
    | Hd : SAMPLING_TIME_INTERVAL ?s1 = (Ok ?d, _), Ht : SAMPLING_TIME_INTERVAL s = (Ok ?t, _) |- _ =>
        assert (d = t) as ->
          by (pose proof (SAMPLING_TIME_INTERVAL_frame s1 s
                            ltac:(simpl; apply lookup_insert_ne; discriminate)) as Hf;
              rewrite Hd, Ht in Hf; simpl in Hf; congruence)
    end.
    eexists _, _, freq, time_p, _, _, _, _, b.
    repeat match goal with |- _ /\ _ => split end; try eassumption.
    + unfold amplitude, bind, lift.
      match goal with
      | Ha : dict s !! "_amplitude" = Some ?w, Hf : py_float ?w = Ok _ |- _ =>
          rewrite (getattr_lookup _ _ _ Ha), Hf
      end. reflexivity.
    + unfold offset, bind, lift.
      match goal with
      | Ha : dict s !! "_offset" = Some ?w, Hf : py_float ?w = Ok _ |- _ =>
          rewrite (getattr_lookup _ _ _ Ha), Hf
      end. reflexivity.
    + reflexivity.
    + simpl. rewrite <- app_assoc. reflexivity.
  - inv_step. split; reflexivity.
Qed.

(** C5, amended: an iteration that returns has either changed nothing (no
    publish, no sleep, the reference offset kept) or published once and then
    slept once, for period/500. *)
Theorem sleep_only_after_publish lm now l s l' s' :
  run_iteration lm now l s = (Ok l', s') ->
  (s' = s /\ old_time_offset l' = old_time_offset l) \/
  (exists v d,
      log s' = (log s ++ [Publish v (Float.of_Z 0); Sleep d])%list /\
      SAMPLING_TIME_INTERVAL s = (Ok d, s)).
Proof.
  intros H. apply run_iteration_Ok in H as (p & cur & d & _ & _ & Hd & H).
  destruct (Float.ge (Float.abs (Float.sub cur (old_time_offset l))) d).
  - right. destruct H as (m0 & m1 & freq & time_p & c & x & a & o & b & H).
    cbv zeta in H. decompose [and] H. subst s'.
    eexists _, d. split; [reflexivity | exact Hd].
  - left. destruct H as [-> ->]. split; reflexivity.
Qed.

Lemma sleep_only_after_publish_witness :
  run_iteration sample_libm (Fin (1 # 4000)) entered (generator sample_libm SQUARE)
    = (Ok sampled,
       after (run_iteration sample_libm (Fin (1 # 4000)) entered)
         (generator sample_libm SQUARE)) /\
  ((after (run_iteration sample_libm (Fin (1 # 4000)) entered)
      (generator sample_libm SQUARE) = generator sample_libm SQUARE /\
    old_time_offset sampled = old_time_offset entered) \/
   (exists v d,
      log (after (run_iteration sample_libm (Fin (1 # 4000)) entered)
             (generator sample_libm SQUARE))
      = (log (generator sample_libm SQUARE)
           ++ [Publish v (Float.of_Z 0); Sleep d])%list /\
      SAMPLING_TIME_INTERVAL (generator sample_libm SQUARE)
      = (Ok d, generator sample_libm SQUARE))).
Proof.
  split; [vm_compute; reflexivity|].
  apply (sleep_only_after_publish sample_libm (Fin (1 # 4000)) entered
           (generator sample_libm SQUARE) sampled).
  vm_compute. reflexivity.
Defined.

(** C5 as stated fails: on a 1000 Hz Square generator whose last sample was
    taken at offset 1/4000, the iteration that reads the clock a whole number
    of periods later (4001/4000) returns without publishing and without
    sleeping, the instance and its log untouched; the run over the clock
    readings 0, 1/4000, 4001/4000 makes two iterations and sleeps once. *)
Lemma iteration_without_publish_does_not_sleep :
  run_iteration sample_libm (Fin (4001 # 4000)) sampled (generator sample_libm SQUARE)
    = (Ok sampled, generator sample_libm SQUARE) /\
  outcome (run sample_libm [Fin 0; Fin (1 # 4000); Fin (4001 # 4000)])
    (generator sample_libm SQUARE) = Ok tt /\
  log (after (run sample_libm [Fin 0; Fin (1 # 4000); Fin (4001 # 4000)])
         (generator sample_libm SQUARE))
    = [Publish (Fin 5) (Fin 0); Sleep (Fin (1 # 500000))].
Proof. vm_compute. repeat split; reflexivity. Qed.



(** C6: with AM selected, an iteration that publishes has formed the
    composite sample (1 + m_t) * c_t from the synthesized carrier sample c_t
    and the difference m_t of the two modulation terminals, and has published
    composite * amplitude + offset. *)
Theorem am_publishes_scaled_composite lm now l s l' s' mt :
  dict s !! "_mod_type" = Some mt -> py_eq mt AM_MOD = true ->
  run_iteration lm now l s = (Ok l', s') ->
  log s' <> log s ->
  exists m0 m1 freq time_p c_t a o d,
    read_terminal "mod_ip" 0 s = (Ok m0, s) /\
    read_terminal "mod_ip" 1 s = (Ok m1, s) /\
    modulated_frequency (Float.sub m0 m1) s = (Ok (freq, time_p), s) /\
    synthesize lm freq time_p (cur_time_offset l') (voltage l) s = (Ok (Some c_t), s) /\
    amplitude s = (Ok a, s) /\ offset s = (Ok o, s) /\
    let composite := Float.mul (Float.add (Float.of_Z 1) (Float.sub m0 m1)) c_t in
    voltage l' = Some composite /\
    log s' = (log s ++ [Publish (Float.add (Float.mul composite a) o) (Float.of_Z 0);
                        Sleep d])%list.
Proof.
  intros Hmt Ham H Hlog.
  apply run_iteration_Ok in H as (p & cur & d & _ & _ & _ & H).
  destruct (Float.ge (Float.abs (Float.sub cur (old_time_offset l))) d).
  2: { destruct H as [_ ->]. contradiction. }
  destruct H as (m0 & m1 & freq & time_p & c & x & a & o & b & H).
  cbv zeta in H. decompose [and] H. subst l' s'. clear H.
  match goal with
  | Hm : modulate _ _ _ = _ |- _ =>
      unfold modulate in Hm;
      rewrite (bind_Ok_eq _ _ _ _ _ (getattr_lookup _ _ _ Hmt)) in Hm;
      unfold AM_MOD in Ham; rewrite Ham in Hm;
      destruct c as [c_t|]; [|discriminate Hm];
      unfold bound, bind, ret in Hm; injection Hm as <-
  end.
  exists m0, m1, freq, time_p, c_t, a, o, d. simpl.
  repeat match goal with |- _ /\ _ => split end; try assumption; reflexivity.
Qed.

Lemma am_publishes_scaled_composite_witness :
  (dict am_generator !! "_mod_type" = Some (VAtom AM_MOD) /\
   py_eq AM_MOD AM_MOD = true /\
   run_iteration sample_libm (Fin (1 # 1250)) entered am_generator
     = (Ok {| cur_time_offset := Fin (1 # 1250); old_time_offset := Fin (1 # 1250);
              voltage := Some (Fin (6 # 5)) |},
        after (run_iteration sample_libm (Fin (1 # 1250)) entered) am_generator) /\
   log (after (run_iteration sample_libm (Fin (1 # 1250)) entered) am_generator)
     <> log am_generator) /\
  exists m0 m1 freq time_p c_t a o d,
    read_terminal "mod_ip" 0 am_generator = (Ok m0, am_generator) /\
    read_terminal "mod_ip" 1 am_generator = (Ok m1, am_generator) /\
    modulated_frequency (Float.sub m0 m1) am_generator
      = (Ok (freq, time_p), am_generator) /\
    synthesize sample_libm freq time_p (Fin (1 # 1250)) None am_generator
      = (Ok (Some c_t), am_generator) /\
    amplitude am_generator = (Ok a, am_generator) /\
    offset am_generator = (Ok o, am_generator) /\
    let composite := Float.mul (Float.add (Float.of_Z 1) (Float.sub m0 m1)) c_t in
    Some (Fin (6 # 5)) = Some composite /\
    log (after (run_iteration sample_libm (Fin (1 # 1250)) entered) am_generator)
    = (log am_generator
         ++ [Publish (Float.add (Float.mul composite a) o) (Float.of_Z 0); Sleep d])%list.
Proof.
  assert (run_iteration sample_libm (Fin (1 # 1250)) entered am_generator
     = (Ok {| cur_time_offset := Fin (1 # 1250); old_time_offset := Fin (1 # 1250);
              voltage := Some (Fin (6 # 5)) |},
        after (run_iteration sample_libm (Fin (1 # 1250)) entered) am_generator)) as Hrun
    by (vm_compute; reflexivity).
  assert (log (after (run_iteration sample_libm (Fin (1 # 1250)) entered) am_generator)
     <> log am_generator) as Hlog
    by (vm_compute; discriminate).
  split; [repeat split; solve [vm_compute; reflexivity | assumption]|].
  exact (am_publishes_scaled_composite sample_libm (Fin (1 # 1250)) entered am_generator
           {| cur_time_offset := Fin (1 # 1250); old_time_offset := Fin (1 # 1250);
              voltage := Some (Fin (6 # 5)) |}
           (after (run_iteration sample_libm (Fin (1 # 1250)) entered) am_generator)
           (VAtom AM_MOD) eq_refl eq_refl Hrun Hlog).
Defined.

(** The published value in that example: carrier 0.8 (a ramp at phase 0.8),
    m_t = 0.5, amplitude 5, offset 0, hence (1.5 * 0.8) * 5 + 0 = 6. *)
Example am_example_published :
  published (after (run_iteration sample_libm (Fin (1 # 1250)) entered) am_generator)
  = [Fin 6].
Proof. vm_compute. reflexivity. Qed.

(** ** The enable input *)

Lemma ignores_ret {A} (a : A) : ignores_enable (ret a).
Proof. intros s1 s2 H. split; [reflexivity | exact H]. Qed.

Lemma ignores_raise {A} e : ignores_enable (@raise A e).
Proof. intros s1 s2 H. split; [reflexivity | exact H]. Qed.

Lemma ignores_lift {A} (r : result A) : ignores_enable (lift r).
Proof. intros s1 s2 H. split; [reflexivity | exact H]. Qed.

Lemma ignores_getattr name :
  name <> "enable" -> name <> "_enable" -> ignores_enable (getattr name).
Proof.
  intros H1 H2 s1 s2 H. pose proof H as [_ Hd]. unfold getattr.
  rewrite (Hd name H1 H2). destruct (dict s2 !! name); split; trivial.
Qed.

Lemma ignores_setattr name v : ignores_enable (setattr name v).
Proof.
  intros s1 s2 [Hl Hd]. split; [reflexivity|]. split; [exact Hl|].
  intros k H1 H2. simpl. destruct (decide (name = k)) as [->|Hne].
  - rewrite !lookup_insert_eq. reflexivity.
  - rewrite !lookup_insert_ne by exact Hne. apply Hd; assumption.
Qed.

Lemma ignores_emit e : ignores_enable (emit e).
Proof.
  intros s1 s2 [Hl Hd]. split; [reflexivity|]. split; [|exact Hd].
  simpl. rewrite Hl. reflexivity.
Qed.

Lemma ignores_bind {A B} (m : M A) (k : A -> M B) :
  ignores_enable m -> (forall a, ignores_enable (k a)) -> ignores_enable (bind m k).
Proof.
  intros Hm Hk s1 s2 H. rewrite !bind_unfold. destruct (Hm s1 s2 H) as [Hr Hs].
  destruct (m s1) as [r1 t1], (m s2) as [r2 t2]. simpl in Hr, Hs. subst r2.
  destruct r1 as [a|e]; [apply Hk; exact Hs | split; [reflexivity | exact Hs]].
Qed.

Lemma ignores_if {A} (c : bool) (m1 m2 : M A) :
  ignores_enable m1 -> ignores_enable m2 -> ignores_enable (if c then m1 else m2).
Proof. destruct c; auto. Qed.

#[local] Hint Resolve ignores_ret ignores_raise ignores_lift ignores_setattr
  ignores_emit ignores_if : py.
#[local] Hint Extern 1 (ignores_enable (getattr _)) =>
  apply ignores_getattr; discriminate : py.
#[local] Hint Extern 1 (ignores_enable (bind _ _)) => apply ignores_bind; [ | intros ?] : py.
#[local] Hint Extern 2 (ignores_enable (match ?x with _ => _ end)) => destruct x : py.

Lemma run_iteration_ignores_enable lm now l : ignores_enable (run_iteration lm now l).
Proof.
  unfold run_iteration, SAMPLING_TIME_INTERVAL, read_terminal, modulated_frequency,
    synthesize, modulate, publish, sleep, bound, phase, type.
  auto 60 with py.
Qed.

Lemma run_loop_ignores_enable lm clock : forall l, ignores_enable (run_loop lm clock l).
Proof.
  induction clock as [|now rest IH]; intros l; simpl.
  - apply ignores_ret.
  - apply ignores_bind; [apply ignores_getattr; discriminate|]. intros stop.
    apply ignores_if; [apply ignores_ret|].
    apply ignores_bind; [apply run_iteration_ignores_enable | exact IH].
Qed.

(** C8: two runs of the thread body over the same clock readings, on
    instances that differ only in the enable input, end alike and have
    published the same voltages in the same order, whatever the number of
    iterations made. *)
Theorem run_ignores_enable lm clock s1 s2 :
  same_but_enable s1 s2 ->
  outcome (run lm clock) s1 = outcome (run lm clock) s2 /\
  log (after (run lm clock) s1) = log (after (run lm clock) s2) /\
  published (after (run lm clock) s1) = published (after (run lm clock) s2).
Proof.
  intros H.
  assert (ignores_enable (run lm clock)) as Hrun.
  { unfold run. destruct clock as [|now rest]; [apply ignores_ret|].
    apply ignores_bind.
    - unfold run_enter. auto 20 with py.
    - intros l. apply ignores_bind; [apply run_loop_ignores_enable|].
      intros _. apply ignores_ret. }
  destruct (Hrun s1 s2 H) as [Hr [Hl _]]. unfold outcome, after.
  split; [exact Hr|]. split; [exact Hl|]. unfold published. rewrite Hl. reflexivity.
Qed.

Lemma run_ignores_enable_witness :
  same_but_enable (generator sample_libm SQUARE)
    (with_bus "enable" high_bus (generator sample_libm SQUARE)) /\
  (outcome (run sample_libm [Fin 0; Fin (1 # 4000); Fin (3 # 4000)])
     (generator sample_libm SQUARE)
   = outcome (run sample_libm [Fin 0; Fin (1 # 4000); Fin (3 # 4000)])
       (with_bus "enable" high_bus (generator sample_libm SQUARE)) /\
   log (after (run sample_libm [Fin 0; Fin (1 # 4000); Fin (3 # 4000)])
          (generator sample_libm SQUARE))
   = log (after (run sample_libm [Fin 0; Fin (1 # 4000); Fin (3 # 4000)])
            (with_bus "enable" high_bus (generator sample_libm SQUARE))) /\
   published (after (run sample_libm [Fin 0; Fin (1 # 4000); Fin (3 # 4000)])
                (generator sample_libm SQUARE))
   = published (after (run sample_libm [Fin 0; Fin (1 # 4000); Fin (3 # 4000)])
                  (with_bus "enable" high_bus (generator sample_libm SQUARE)))).
Proof.
  assert (same_but_enable (generator sample_libm SQUARE)
            (with_bus "enable" high_bus (generator sample_libm SQUARE))) as H.
  { split; [reflexivity|]. intros k Hk _. unfold with_bus. simpl.
    rewrite lookup_insert_ne by congruence. reflexivity. }
  split; [exact H|].
  exact (run_ignores_enable sample_libm [Fin 0; Fin (1 # 4000); Fin (3 # 4000)] _ _ H).
Defined.

(** The two generators of that example do differ in what [enable] carries,
    and both publish the levels 1 and 0 scaled by the amplitude. *)
Example enable_example_differs :
  dict (generator sample_libm SQUARE) !! "enable" = Some (VBus (Bus_new 1)) /\
  dict (with_bus "enable" high_bus (generator sample_libm SQUARE)) !! "enable"
    = Some (VBus high_bus) /\
  published (after (run sample_libm [Fin 0; Fin (1 # 4000); Fin (3 # 4000)])
               (with_bus "enable" high_bus (generator sample_libm SQUARE)))
    = [Fin 5; Fin 0].
Proof. vm_compute. repeat split; reflexivity. Qed.

(** ** The setters, call by call *)

Lemma outcome_after {A} (m : M A) s : m s = (outcome m s, after m s).
Proof. unfold outcome, after. destruct (m s). reflexivity. Qed.

Lemma le_ge_eq x y : Float.le x y && Float.ge x y = Float.eq x y.
Proof.
  unfold Float.ge, Float.le, Float.eq.
  destruct x as [a| | |], y as [b| | |]; simpl; try reflexivity.
  rewrite <- (Qcompare_antisym a b). destruct (a ?= b); reflexivity.
Qed.

Lemma select_range_find f x bands :
  num_of f = Some x ->
  Forall (fun band : atom * atom => exists y, num_of (fst band) = Some y) bands ->
  select_range f bands
  = Ok (find (fun band => match num_of (fst band) with
                          | Some y => Float.eq x y
                          | None => false
                          end) bands).
Proof.
  intros Hf. induction 1 as [|band rest [y Hy] _ IH]; simpl; [reflexivity|].
  unfold py_le, py_ge, py_compare. rewrite Hf, Hy. simpl.
  rewrite <- le_ge_eq.
  destruct (Float.le x y); simpl; [destruct (Float.ge x y); simpl|]; auto.
Qed.

Lemma period_of_div x :
  Float.eq x (Float.of_Z 0) = false -> Float.div (Float.of_Z 1) x = Ok (period_of x).
Proof.
  intros H. unfold period_of. rewrite H.
  destruct (div_nonzero (Float.of_Z 1) x H) as [p ->]. reflexivity.
Qed.

(** The instance that a call of [set_frequency_exact] with a number
    leaves. *)
Lemma set_frequency_exact_state f x s :
  int_or_float (VAtom f) = Some f -> num_of f = Some x ->
  set_frequency_exact (VAtom f) s
  = (Ok tt,
     {| dict :=
          <["_time_period" := VAtom (AFloat (period_of x))]>
            (match band_at x with
             | Some (lo, hi) => <["_frequency_range" := VTuple [lo; hi]]>
             | None => fun d => d
             end (<["_frequency" := VAtom (AFloat x)]> (dict s)));
        log := log s |}).
Proof.
  intros Ef Hx.
  pose proof (select_range_find f x FREQ_RANGE Hx FREQ_RANGE_numeric) as Hband.
  fold (band_at x) in Hband.
  unfold set_frequency_exact. rewrite Ef.
  unfold py_lt, py_gt, py_compare, py_float. simpl value_num. rewrite Hx, Hband. simpl num_of.
  destruct s as [d l].
  destruct (Float.lt x (Fin (1 # 10))), (Float.gt x (Float.of_Z 1000000000)),
    (band_at x) as [[lo hi]|];
    unfold bind, when, lift, ret, setattr, getattr; simpl;
    repeat (rewrite lookup_insert_eq || rewrite lookup_insert_ne by discriminate);
    change (py_eq (VAtom (AFloat x)) (VAtom (AInt 0))) with (Float.eq x (Float.of_Z 0));
    destruct (Float.eq x (Float.of_Z 0)) eqn:Hz; simpl;
    repeat (rewrite lookup_insert_eq || rewrite lookup_insert_ne by discriminate);
    simpl; rewrite ?(period_of_div x Hz); simpl;
    rewrite ?insert_insert_eq; unfold period_of; rewrite Hz;
    try (destruct (div_nonzero (Float.of_Z 1) x Hz) as [p ->]); reflexivity.
Qed.


(** [set_frequency_exact] replaces the band exactly when the frequency equals
    the lower bound of one of the eight bands, by that band; for every other
    frequency the band is left as it was (unbound if it was unbound). *)
Theorem set_frequency_exact_band v f x s :
  int_or_float v = Some f -> num_of f = Some x ->
  dict (after (set_frequency_exact v) s) !! "_frequency_range"
  = match band_at x with
    | Some (lo, hi) => Some (VTuple [lo; hi])
    | None => dict s !! "_frequency_range"
    end /\
  forall lo hi, band_at x = Some (lo, hi) ->
    In (lo, hi) FREQ_RANGE /\ exists y, num_of lo = Some y /\ Float.eq x y = true.
Proof.
  intros Ef Hx. destruct (int_or_float_num v f Ef) as [-> _]. split.
  - unfold after. rewrite (set_frequency_exact_state f x s Ef Hx). simpl.
    rewrite lookup_insert_ne by discriminate.
    destruct (band_at x) as [[lo hi]|].
    + apply lookup_insert_eq.
    + apply lookup_insert_ne. discriminate.
  - intros lo hi H. unfold band_at in H. apply find_some in H as [Hin H].
    split; [exact Hin|]. simpl in H. destruct (num_of lo) as [y|]; [|discriminate].
    exists y. auto.
Qed.

Lemma set_frequency_exact_band_witness :
  (int_or_float (AInt 1000) = Some (AInt 1000) /\
   num_of (AInt 1000) = Some (Float.of_Z 1000)) /\
  dict (after (set_frequency_exact (AInt 1000)) blank) !! "_frequency_range"
  = match band_at (Float.of_Z 1000) with
    | Some (lo, hi) => Some (VTuple [lo; hi])
    | None => dict blank !! "_frequency_range"
    end /\
  forall lo hi, band_at (Float.of_Z 1000) = Some (lo, hi) ->
    In (lo, hi) FREQ_RANGE /\
    exists y, num_of lo = Some y /\ Float.eq (Float.of_Z 1000) y = true.
Proof.
  split; [split; reflexivity|].
  apply (set_frequency_exact_band (AInt 1000) (AInt 1000) (Float.of_Z 1000) blank);
    reflexivity.
Defined.

Example band_at_examples :
  band_at (Float.of_Z 1000) = Some (AInt 1000, AInt 10000) /\
  band_at (Float.of_Z 500) = None /\
  band_at (Fin (1 # 10)) = Some (AFloat (Fin (1 # 10)), AInt 10) /\
  band_at (Float.of_Z 1000000000) = None.
Proof. vm_compute. repeat split; reflexivity. Qed.



Lemma set_frequency_range_tuple_witness :
  (num_of (AInt 20) = Some (Float.of_Z 20) /\
   num_of (AInt 2000000000) = Some (Float.of_Z 2000000000) /\
   num_of (AInt 200) = Some (Float.of_Z 200) /\
   Float.gt (Float.of_Z 20) (Float.of_Z 2000000000) = false /\
   Float.gt (Float.of_Z 20) (Float.of_Z 200) = false) /\
  set_frequency_range (VTuple [AInt 20; AInt 2000000000]) blank = (Raise TypeError, blank) /\
  set_frequency_range (VTuple [AInt 20; AInt 200]) blank
  = (Ok (VTuple [AInt 20; AInt 200]),
     {| dict := <["_frequency_range" := VTuple [AInt 20; AInt 200]]> (dict blank);
        log := log blank |}).
Proof.
  split; [repeat split; reflexivity|]. split.
  - exact (set_frequency_range_tuple (AInt 20) (AInt 2000000000)
             (Float.of_Z 20) (Float.of_Z 2000000000) blank eq_refl eq_refl eq_refl).
  - exact (set_frequency_range_tuple (AInt 20) (AInt 200)
             (Float.of_Z 20) (Float.of_Z 200) blank eq_refl eq_refl eq_refl).
Defined.

(** *** Failure leaves no trace *)

Lemma aon_readonly {A} (m : M A) : readonly m -> all_or_nothing m.
Proof. intros H s e _. apply H. Qed.

Lemma aon_setattr name v : all_or_nothing (setattr name v).
Proof. intros s e H. discriminate H. Qed.

Lemma aon_bind {A B} (m : M A) (k : A -> M B) :
  readonly m -> (forall a, all_or_nothing (k a)) -> all_or_nothing (bind m k).
Proof.
  intros Hm Hk s e. unfold outcome, after. rewrite bind_unfold.
  pose proof (Hm s) as Hs. destruct (m s) as [[a|e'] s1]; simpl in Hs; subst s1.
  - apply Hk.
  - reflexivity.
Qed.

Lemma aon_if {A} (c : bool) (m1 m2 : M A) :
  all_or_nothing m1 -> all_or_nothing m2 -> all_or_nothing (if c then m1 else m2).
Proof. destruct c; auto. Qed.

Lemma aon_setattr_ret {A} name v (x : A) : all_or_nothing (setattr name v;; ret x).
Proof. intros s e H. discriminate H. Qed.

Lemma readonly_lift {A} (r : result A) : readonly (lift r).
Proof. intros s. reflexivity. Qed.

Lemma readonly_getattr name : readonly (getattr name).
Proof. intros s. unfold getattr. destruct (dict s !! name); reflexivity. Qed.

Lemma readonly_ret {A} (a : A) : readonly (ret a).
Proof. intros s. reflexivity. Qed.

Lemma readonly_raise {A} e : readonly (@raise A e).
Proof. intros s. reflexivity. Qed.

Lemma readonly_if {A} (c : bool) (m1 m2 : M A) :
  readonly m1 -> readonly m2 -> readonly (if c then m1 else m2).
Proof. destruct c; auto. Qed.

#[local] Hint Resolve readonly_lift readonly_getattr readonly_ret readonly_raise
  readonly_if aon_setattr aon_if aon_setattr_ret : py.
#[local] Hint Extern 1 (all_or_nothing (raise _)) => apply aon_readonly, readonly_raise : py.
#[local] Hint Extern 1 (all_or_nothing (ret _)) => apply aon_readonly, readonly_ret : py.
#[local] Hint Extern 2 (all_or_nothing (bind _ _)) => apply aon_bind; [ | intros ?] : py.
#[local] Hint Extern 3 (all_or_nothing (match ?x with _ => _ end)) => destruct x : py.

(** The closing statements of [set_frequency]: once the frequency is
    stored, the time period follows without an exception. *)
Lemma store_period_returns x s :
  (setattr "_frequency" (AFloat x);;
   let* fr := getattr "_frequency" in
   if negb (py_eq fr (AInt 0))
   then
     let* fr := getattr "_frequency" in
     let* d := lift (py_float fr) in
     let* t := lift (Float.div (Float.of_Z 1) d) in
     setattr "_time_period" (AFloat t)
   else setattr "_time_period" (AFloat PInf)) s
  = (Ok tt,
     {| dict := <["_time_period" := VAtom (AFloat (period_of x))]>
                  (<["_frequency" := VAtom (AFloat x)]> (dict s));
        log := log s |}).
Proof.
  unfold bind, setattr, getattr, lift. simpl.
  rewrite lookup_insert_eq.
  change (py_eq (VAtom (AFloat x)) (VAtom (AInt 0))) with (Float.eq x (Float.of_Z 0)).
  unfold period_of.
  destruct (Float.eq x (Float.of_Z 0)) eqn:Hz; simpl; [reflexivity|].
  rewrite lookup_insert_eq. simpl.
  destruct (div_nonzero (Float.of_Z 1) x Hz) as [p ->]. reflexivity.
Qed.

Lemma aon_set_frequency v : all_or_nothing (set_frequency v).
Proof.
  unfold set_frequency.
  destruct (int_or_float v) as [p|]; [|auto with py].
  repeat (apply aon_bind; [solve [auto with py] | intros ?]).
  apply aon_if; [auto with py|].
  repeat (apply aon_bind; [solve [auto with py] | intros ?]).
  intros s e H. unfold outcome in H. rewrite store_period_returns in H. discriminate H.
Qed.

Lemma aon_set_frequency_exact v : all_or_nothing (set_frequency_exact v).
Proof.
  intros s e H. destruct (int_or_float v) as [f|] eqn:Ef.
  - rewrite (set_frequency_exact_returns v f s Ef) in H. discriminate H.
  - unfold after, set_frequency_exact. rewrite Ef. reflexivity.
Qed.



(** *** Offset, waveform type, modulation type *)

Lemma lt_Fin a b : Float.lt (Fin a) (Fin b) = true <-> a < b.
Proof.
  unfold Float.lt, Float.cmp. rewrite Qlt_alt.
  destruct (a ?= b); split; congruence.
Qed.

Lemma lt_Fin_false a b : Float.lt (Fin a) (Fin b) = false <-> b <= a.
Proof.
  pose proof (lt_Fin a b) as H. split.
  - intros Hf. apply Qnot_lt_le. intros Hlt. apply H in Hlt. congruence.
  - intros Hle. destruct (Float.lt (Fin a) (Fin b)); [|reflexivity].
    exfalso. apply (Qle_not_lt _ _ Hle). apply H. reflexivity.
Qed.

(** [set_offset] accepts a finite number exactly when it lies between
    -AMPL_MAX and AMPL_MAX, both included, and then stores it as a float;
    nan passes both comparisons and is stored as well. *)
Theorem set_offset_range v f q s :
  int_or_float v = Some f -> num_of f = Some (Fin q) ->
  (-10 <= q /\ q <= 10 ->
   set_offset v s
   = (Ok tt, {| dict := <["_offset" := VAtom (AFloat (Fin q))]> (dict s); log := log s |})) /\
  (q < -10 \/ 10 < q ->
   set_offset v s
   = (Raise (Exception "ERROR: Invalid offset value. Specify offset within the range"), s)) /\
  set_offset (AFloat NaN) s
  = (Ok tt, {| dict := <["_offset" := VAtom (AFloat NaN)]> (dict s); log := log s |}).
Proof.
  intros Ef Hq. destruct (int_or_float_num v f Ef) as [-> _].
  unfold set_offset. rewrite Ef.
  unfold py_gt, py_lt, py_compare, py_float. simpl value_num. rewrite Hq. simpl num_of.
  unfold Float.gt, Float.neg, bind, lift, ret, raise, setattr.
  change (Float.fin (- (10))) with (Fin (-10)).
  repeat split.
  - intros [Hlo Hhi].
    apply lt_Fin_false in Hhi. rewrite Hhi.
    apply lt_Fin_false in Hlo. rewrite Hlo. reflexivity.
  - intros [Hlo | Hhi].
    + apply lt_Fin in Hlo.
      destruct (Float.lt (Fin 10) (Fin q)); [reflexivity|]. rewrite Hlo. reflexivity.
    + apply lt_Fin in Hhi. rewrite Hhi. reflexivity.
Qed.

Lemma set_offset_range_witness :
  (int_or_float (AFloat (Fin (-5 # 2))) = Some (AFloat (Fin (-5 # 2))) /\
   num_of (AFloat (Fin (-5 # 2))) = Some (Fin (-5 # 2)) /\
   -10 <= -5 # 2 /\ -5 # 2 <= 10) /\
  set_offset (AFloat (Fin (-5 # 2))) blank
  = (Ok tt, {| dict := <["_offset" := VAtom (AFloat (Fin (-5 # 2)))]> (dict blank);
               log := log blank |}).
Proof.
  assert (-10 <= -5 # 2 /\ -5 # 2 <= 10) as H by (split; discriminate).
  split; [repeat split; solve [reflexivity | apply H]|].
  exact (proj1 (set_offset_range (AFloat (Fin (-5 # 2))) (AFloat (Fin (-5 # 2)))
                  (-5 # 2) blank eq_refl eq_refl) H).
Defined.

Lemma py_eq_int v k :
  py_eq v (VAtom (AInt k))
  = match value_num v with Some x => Float.eq x (Float.of_Z k) | None => false end.
Proof. destruct v as [[z|x|b|]| | |]; reflexivity. Qed.

Lemma py_in_ints v ks :
  py_in v (map (fun k => VAtom (AInt k)) ks) = true <->
  exists x z, value_num v = Some x /\ In z ks /\ Float.eq x (Float.of_Z z) = true.
Proof.
  unfold py_in. rewrite existsb_exists. split.
  - intros (w & Hin & Heq). apply in_map_iff in Hin as (z & <- & Hz).
    rewrite py_eq_int in Heq. destruct (value_num v) as [x|]; [|discriminate].
    exists x, z. auto.
  - intros (x & z & Hv & Hz & Heq). exists (VAtom (AInt z)). split.
    + apply in_map_iff. exists z. auto.
    + rewrite py_eq_int, Hv. exact Heq.
Qed.

Lemma In_upto5 z : In z [0; 1; 2; 3; 4; 5]%Z <-> (0 <= z <= 5)%Z.
Proof. simpl. lia. Qed.

Lemma In_upto2 z : In z [0; 1; 2]%Z <-> (0 <= z <= 2)%Z.
Proof. simpl. lia. Qed.

(** [set_type] accepts exactly the values that compare equal to one of the
    integers 0 to 5 (so 3.0 and True pass, 2.5 and None do not); it stores
    the value as given, and the property [type] then returns its number. *)
Theorem set_type_accepts v s :
  (outcome (set_type v) s = Ok tt <->
   exists x z, value_num v = Some x /\ (0 <= z <= 5)%Z /\
               Float.eq x (Float.of_Z z) = true) /\
  (outcome (set_type v) s = Ok tt ->
   after (set_type v) s = {| dict := <["_type" := v]> (dict s); log := log s |} /\
   exists x, value_num v = Some x /\ outcome type (after (set_type v) s) = Ok x).
Proof.
  pose proof (py_in_ints v [0; 1; 2; 3; 4; 5]%Z) as Hin. simpl map in Hin.
  unfold outcome, after, set_type.
  destruct (py_in v _) eqn:E; simpl.
  - destruct (proj1 Hin eq_refl) as (x & z & Hv & Hz & Heq).
    split; [split; [intros _; exists x, z; rewrite <- In_upto5; auto | reflexivity]|].
    intros _. split; [reflexivity|]. exists x. split; [exact Hv|].
    unfold type, bind, getattr, lift, py_float. simpl. rewrite lookup_insert_eq, Hv.
    reflexivity.
  - split; [|discriminate]. split; [discriminate|].
    intros (x & z & Hv & Hz & Heq). apply In_upto5 in Hz.
    assert (false = true) by (apply Hin; eauto). discriminate.
Qed.

Example set_type_examples s :
  outcome (set_type (ABool true)) s = Ok tt /\
  outcome (set_type (AFloat (Fin 3))) s = Ok tt /\
  outcome (set_type (AFloat (Fin (5 # 2)))) s
    = Raise (Exception "ERROR: Invalid input. Please give a numerical value between 0 and 5 ( both inclusive ) ") /\
  outcome (set_type (AInt 6)) s
    = Raise (Exception "ERROR: Invalid input. Please give a numerical value between 0 and 5 ( both inclusive ) ") /\
  outcome (set_type ANone) s
    = Raise (Exception "ERROR: Invalid input. Please give a numerical value between 0 and 5 ( both inclusive ) ").
Proof. repeat split; reflexivity. Qed.

(** [set_modulation_type] accepts exactly the values that compare equal to
    0, 1 or 2, and stores the value as given. *)
Theorem set_modulation_type_accepts v s :
  (outcome (set_modulation_type v) s = Ok tt <->
   exists x z, value_num v = Some x /\ (0 <= z <= 2)%Z /\
               Float.eq x (Float.of_Z z) = true) /\
  (outcome (set_modulation_type v) s = Ok tt ->
   after (set_modulation_type v) s
   = {| dict := <["_mod_type" := v]> (dict s); log := log s |}).
Proof.
  pose proof (py_in_ints v [0; 1; 2]%Z) as Hin. simpl map in Hin.
  unfold outcome, after, set_modulation_type.
  destruct (py_in v _) eqn:E; simpl.
  - destruct (proj1 Hin eq_refl) as (x & z & Hv & Hz & Heq).
    split; [split; [intros _; exists x, z; rewrite <- In_upto2; auto | reflexivity]|].
    reflexivity.
  - split; [|discriminate]. split; [discriminate|].
    intros (x & z & Hv & Hz & Heq). apply In_upto2 in Hz.
    assert (false = true) by (apply Hin; eauto). discriminate.
Qed.

(** ** What the thread body reads and writes *)

Lemma ignores_ret' {A} hidden (a : A) : ignores hidden (ret a).
Proof. intros s1 s2 H. split; [reflexivity | exact H]. Qed.

Lemma ignores_raise' {A} hidden e : ignores hidden (@raise A e).
Proof. intros s1 s2 H. split; [reflexivity | exact H]. Qed.

Lemma ignores_lift' {A} hidden (r : result A) : ignores hidden (lift r).
Proof. intros s1 s2 H. split; [reflexivity | exact H]. Qed.

Lemma ignores_getattr' (hidden : string -> Prop) name :
  ~ hidden name -> ignores hidden (getattr name).
Proof.
  intros Hn s1 s2 H. pose proof H as [_ Hd]. unfold getattr.
  rewrite (Hd name Hn). destruct (dict s2 !! name); split; trivial.
Qed.

Lemma ignores_setattr' hidden name v : ignores hidden (setattr name v).
Proof.
  intros s1 s2 [Hl Hd]. split; [reflexivity|]. split; [exact Hl|].
  intros k Hk. simpl. destruct (decide (name = k)) as [->|Hne].
  - rewrite !lookup_insert_eq. reflexivity.
  - rewrite !lookup_insert_ne by exact Hne. apply Hd. exact Hk.
Qed.

Lemma ignores_emit' hidden e : ignores hidden (emit e).
Proof.
  intros s1 s2 [Hl Hd]. split; [reflexivity|]. split; [|exact Hd].
  simpl. rewrite Hl. reflexivity.
Qed.

Lemma ignores_bind' {A B} hidden (m : M A) (k : A -> M B) :
  ignores hidden m -> (forall a, ignores hidden (k a)) -> ignores hidden (bind m k).
Proof.
  intros Hm Hk s1 s2 H. rewrite !bind_unfold. destruct (Hm s1 s2 H) as [Hr Hs].
  destruct (m s1) as [r1 t1], (m s2) as [r2 t2]. simpl in Hr, Hs. subst r2.
  destruct r1 as [a|e]; [apply Hk; exact Hs | split; [reflexivity | exact Hs]].
Qed.

Lemma ignores_if' {A} hidden (c : bool) (m1 m2 : M A) :
  ignores hidden m1 -> ignores hidden m2 -> ignores hidden (if c then m1 else m2).
Proof. destruct c; auto. Qed.

Create HintDb flow discriminated.

#[local] Hint Resolve ignores_ret' ignores_raise' ignores_lift' ignores_setattr'
  ignores_emit' ignores_if' : flow.
#[local] Hint Extern 1 (ignores _ (getattr _)) =>
  apply ignores_getattr'; unfold run_reads; simpl; tauto : flow.
#[local] Hint Extern 1 (ignores _ (bind _ _)) => apply ignores_bind'; [ | intros ?] : flow.
#[local] Hint Extern 2 (ignores _ (match ?x with _ => _ end)) => destruct x : flow.

Lemma run_iteration_reads lm now l :
  ignores (fun k => ~ In k run_reads) (run_iteration lm now l).
Proof.
  unfold run_iteration, SAMPLING_TIME_INTERVAL, read_terminal, modulated_frequency,
    synthesize, modulate, publish, sleep, bound, phase, type.
  auto 60 with flow.
Qed.

Lemma run_loop_reads lm clock :
  forall l, ignores (fun k => ~ In k run_reads) (run_loop lm clock l).
Proof.
  induction clock as [|now rest IH]; intros l; simpl.
  - apply ignores_ret'.
  - apply ignores_bind'; [apply ignores_getattr'; unfold run_reads; simpl; tauto|].
    intros stop. apply ignores_if'; [apply ignores_ret'|].
    apply ignores_bind'; [apply run_iteration_reads | exact IH].
Qed.

Lemma run_reads_only lm clock : ignores (fun k => ~ In k run_reads) (run lm clock).
Proof.
  unfold run. destruct clock as [|now rest]; [apply ignores_ret'|].
  apply ignores_bind'.
  - unfold run_enter. auto 20 with flow.
  - intros l. apply ignores_bind'; [apply run_loop_reads|].
    intros _. apply ignores_ret'.
Qed.

Lemma agree_on_reads s1 s2 :
  log s1 = log s2 ->
  (forall k, In k run_reads -> dict s1 !! k = dict s2 !! k) ->
  same_off (fun k => ~ In k run_reads) s1 s2.
Proof.
  intros Hl Hd. split; [exact Hl|]. intros k Hk. apply Hd.
  destruct (in_dec string_dec k run_reads) as [Hin|Hout]; [exact Hin|].
  exfalso. exact (Hk Hout).
Qed.

(** The outcome of the thread body and everything it logs depend on nine
    attributes only: two instances that agree on these (and on the log so
    far) run alike.  The attenuation, the frequency band and the enable bus
    are not among them. *)
Theorem run_reads_nine_attributes lm clock s1 s2 :
  log s1 = log s2 ->
  (forall k, In k run_reads -> dict s1 !! k = dict s2 !! k) ->
  outcome (run lm clock) s1 = outcome (run lm clock) s2 /\
  log (after (run lm clock) s1) = log (after (run lm clock) s2).
Proof.
  intros Hl Hd.
  destruct (run_reads_only lm clock s1 s2 (agree_on_reads s1 s2 Hl Hd)) as [Hr [Hl' _]].
  split; [exact Hr | exact Hl'].
Qed.

Lemma run_reads_nine_attributes_witness :
  (log (generator sample_libm SQUARE)
   = log (after (set_attenuation (AInt 30)) (generator sample_libm SQUARE)) /\
   (forall k, In k run_reads ->
      dict (generator sample_libm SQUARE) !! k
      = dict (after (set_attenuation (AInt 30)) (generator sample_libm SQUARE)) !! k)) /\
  outcome (run sample_libm [Fin 0; Fin (1 # 4000); Fin (3 # 4000)])
    (generator sample_libm SQUARE)
  = outcome (run sample_libm [Fin 0; Fin (1 # 4000); Fin (3 # 4000)])
      (after (set_attenuation (AInt 30)) (generator sample_libm SQUARE)) /\
  log (after (run sample_libm [Fin 0; Fin (1 # 4000); Fin (3 # 4000)])
         (generator sample_libm SQUARE))
  = log (after (run sample_libm [Fin 0; Fin (1 # 4000); Fin (3 # 4000)])
           (after (set_attenuation (AInt 30)) (generator sample_libm SQUARE))).
Proof.
  assert (forall k, In k run_reads ->
      dict (generator sample_libm SQUARE) !! k
      = dict (after (set_attenuation (AInt 30)) (generator sample_libm SQUARE)) !! k) as H.
  { intros k Hk. simpl in Hk.
    repeat (destruct Hk as [<-|Hk]; [vm_compute; reflexivity|]). destruct Hk. }
  split; [split; [reflexivity | exact H]|].
  exact (run_reads_nine_attributes sample_libm [Fin 0; Fin (1 # 4000); Fin (3 # 4000)]
           (generator sample_libm SQUARE)
           (after (set_attenuation (AInt 30)) (generator sample_libm SQUARE))
           eq_refl H).
Defined.

Lemma set_attenuation_frame a s k :
  k <> "_attenuation" ->
  dict (after (set_attenuation a) s) !! k = dict s !! k /\
  log (after (set_attenuation a) s) = log s.
Proof.
  intros Hk. unfold after, set_attenuation.
  destruct (int_or_float a) as [f|]; [|split; reflexivity].
  unfold bind, lift. destruct (py_lt f (AInt 0)) as [[]|]; simpl;
    try (split; reflexivity).
  split; [apply lookup_insert_ne; congruence | reflexivity].
Qed.

(** Turning the attenuation knob changes nothing of what the generator puts
    out: whatever the argument, the thread body run after [set_attenuation]
    ends and logs as it would have without the call (the amplitude that it
    scales by is not recomputed). *)
Theorem set_attenuation_leaves_output lm clock a s :
  outcome (run lm clock) (after (set_attenuation a) s) = outcome (run lm clock) s /\
  log (after (run lm clock) (after (set_attenuation a) s)) = log (after (run lm clock) s).
Proof.
  assert (same_off (fun k => ~ In k run_reads) (after (set_attenuation a) s) s) as H.
  { apply agree_on_reads.
    - apply (set_attenuation_frame a s "_type"). discriminate.
    - intros k Hk. apply set_attenuation_frame. intros ->. simpl in Hk.
      repeat (destruct Hk as [Hk|Hk]; [discriminate Hk|]). destruct Hk. }
  destruct (run_reads_only lm clock _ _ H) as [Hr [Hl _]].
  split; [exact Hr | exact Hl].
Qed.

Example set_attenuation_is_stored :
  outcome attenuation (after (set_attenuation (AInt 30)) (generator sample_libm SQUARE))
    = Ok (Fin 30) /\
  outcome amplitude (after (set_attenuation (AInt 30)) (generator sample_libm SQUARE))
    = Ok (Fin 5) /\
  outcome (set_attenuation (AInt (-1))) (generator sample_libm SQUARE)
    = Raise (Exception "ERROR: Only positive values can be given").
Proof. vm_compute. repeat split; reflexivity. Qed.

(** ** What the thread body leaves behind *)

Lemma bind_readonly {A B} (m : M A) (k : A -> M B) s r s' :
  readonly m -> bind m k s = (r, s') ->
  (s' = s /\ exists e, r = Raise e) \/ exists a, m s = (Ok a, s) /\ k a s = (r, s').
Proof.
  intros Hm. rewrite bind_unfold. pose proof (Hm s) as Hs.
  destruct (m s) as [[a|e] s1]; simpl in Hs; subst s1; intros H.
  - right. exists a. auto.
  - left. injection H as <- <-. eauto.
Qed.

Lemma SAMPLING_TIME_INTERVAL_at s1 s t :
  SAMPLING_TIME_INTERVAL s = (Ok t, s) ->
  dict s1 !! "_time_period" = dict s !! "_time_period" ->
  SAMPLING_TIME_INTERVAL s1 = (Ok t, s1).
Proof.
  unfold SAMPLING_TIME_INTERVAL, bind, getattr, lift. intros H ->.
  destruct (dict s !! "_time_period") as [v|]; [|discriminate].
  destruct (py_float v); [|discriminate]. injection H as <-. reflexivity.
Qed.

(** The closing statements of an iteration: the write to the output bus,
    then the sleep. *)
Lemma publish_then_sleep (l' : locals) v t s r s' :
  SAMPLING_TIME_INTERVAL s = (Ok t, s) ->
  (publish v;; let* d := SAMPLING_TIME_INTERVAL in sleep d;; ret l') s = (r, s') ->
  (s' = s /\ exists e, r = Raise e) \/
  exists b, dict s !! "outputs" = Some (VBus b) /\ r = Ok l' /\
    s' = {| dict := <["outputs" := VBus (Bus_set_voltage_all b v (Float.of_Z 0))]> (dict s);
            log := (log s ++ [Publish v (Float.of_Z 0); Sleep t])%list |}.
Proof.
  intros Ht. unfold publish. rewrite !bind_unfold. unfold getattr.
  destruct (dict s !! "outputs") as [[a|xs|xs|b]|] eqn:Ho;
    try (unfold raise; intros H; injection H as <- <-; left; eauto).
  rewrite !bind_unfold. unfold setattr, emit at 1. cbn [dict log]. rewrite bind_unfold.
  match goal with
  | |- context [SAMPLING_TIME_INTERVAL ?s1] =>
      rewrite (SAMPLING_TIME_INTERVAL_at s1 s t Ht)
        by (simpl; apply lookup_insert_ne; discriminate)
  end.
  unfold sleep, emit, ret. simpl. intros H. injection H as <- <-.
  right. exists b. split; [reflexivity|]. split; [reflexivity|].
  rewrite <- app_assoc. reflexivity.
Qed.

Ltac step_readonly lm H :=
  apply bind_readonly in H;
  [ destruct H as [H | [? [? H]]]; [left; exact H|]
  | first [ apply readonly_getattr | apply readonly_lift
          | apply properties_readonly | apply (run_reads_readonly lm) ] ].

(** An iteration either leaves the instance and the log as they were, or it
    returns having written one voltage to the output bus and logged one
    publish followed by one sleep of period/500. *)
Lemma run_iteration_step lm now l s r s' :
  run_iteration lm now l s = (r, s') ->
  (s' = s /\ exists e, r = Raise e) \/
  (s' = s /\ exists l', r = Ok l') \/
  exists b v t l',
    dict s !! "outputs" = Some (VBus b) /\ SAMPLING_TIME_INTERVAL s = (Ok t, s) /\
    r = Ok l' /\
    s' = {| dict := <["outputs" := VBus (Bus_set_voltage_all b v (Float.of_Z 0))]> (dict s);
            log := (log s ++ [Publish v (Float.of_Z 0); Sleep t])%list |}.
Proof.
  unfold run_iteration. intros H.
  step_readonly lm H. step_readonly lm H. step_readonly lm H.
  apply bind_readonly in H; [|apply properties_readonly].
  destruct H as [H | (t & Ht & H)]; [left; exact H|].
  match type of H with (if ?c then _ else _) _ = _ => destruct c end.
  - step_readonly lm H. step_readonly lm H.
    apply bind_readonly in H; [|apply (run_reads_readonly lm)].
    destruct H as [H | ([freq time_p] & _ & H)]; [left; exact H|].
    do 7 (step_readonly lm H).
    apply (publish_then_sleep _ _ t) in H; [|exact Ht].
    destruct H as [H | (b & Ho & -> & ->)]; [left; exact H|].
    right. right. eexists b, _, t, _. repeat split; [exact Ho | exact Ht].
  - right. left. unfold ret in H. injection H as <- <-. eauto.
Qed.

Lemma run_loop_trace lm clock :
  forall l s r s', run_loop lm clock l s = (r, s') ->
    (forall k, k <> "outputs" -> dict s' !! k = dict s !! k) /\
    exists evs,
      log s' = (log s ++ evs)%list /\ (length evs <= 2 * length clock)%nat /\
      match outcome SAMPLING_TIME_INTERVAL s with
      | Ok t => samples t evs
      | Raise _ => evs = []
      end.
Proof.
  assert (forall s n, (forall k : string, k <> "outputs" -> dict s !! k = dict s !! k) /\
            exists evs, log s = (log s ++ evs)%list /\ (length evs <= n)%nat /\
              match outcome SAMPLING_TIME_INTERVAL s with
              | Ok t => samples t evs
              | Raise _ => evs = []
              end) as Hsame.
  { intros s n. split; [reflexivity|]. exists []. rewrite app_nil_r.
    split; [reflexivity|]. split; [simpl; lia|].
    destruct (outcome SAMPLING_TIME_INTERVAL s); [constructor | reflexivity]. }
  induction clock as [|now rest IH]; intros l s r s' H.
  - unfold run_loop, ret in H. injection H as _ <-. apply Hsame.
  - cbn [run_loop] in H.
    apply bind_readonly in H; [|apply readonly_getattr].
    destruct H as [[-> _] | (stop & _ & H)]; [apply Hsame|].
    destruct (py_bool stop).
    { unfold ret in H. injection H as _ <-. apply Hsame. }
    rewrite bind_unfold in H.
    destruct (run_iteration lm now l s) as [r1 s1] eqn:E.
    apply run_iteration_step in E.
    destruct E as [[-> [e ->]] | [[-> [l1 ->]] | (b & v & t & l1 & Ho & Ht & -> & ->)]].
    + injection H as _ <-. apply Hsame.
    + destruct (IH _ _ _ _ H) as (Hd & evs & Hl & Hn & Hs). split; [exact Hd|].
      exists evs. split; [exact Hl|]. split; [simpl; lia | exact Hs].
    + destruct (IH _ _ _ _ H) as (Hd & evs & Hl & Hn & Hs). cbn [dict log] in *. split.
      * intros k Hk. rewrite (Hd k Hk). apply lookup_insert_ne. congruence.
      * exists (Publish v (Float.of_Z 0) :: Sleep t :: evs).
        split; [rewrite Hl, <- app_assoc; reflexivity|].
        split; [simpl; lia|].
        unfold outcome in *. rewrite Ht. simpl.
        rewrite (SAMPLING_TIME_INTERVAL_at _ s t Ht) in Hs
          by (simpl; apply lookup_insert_ne; discriminate).
        constructor. exact Hs.
Qed.

Lemma run_enter_readonly now : readonly (run_enter now).
Proof. unfold run_enter. solve_readonly. Qed.

(** Where [run] leaves the instance: the state that its loop leaves, or the
    one it was entered on. *)
Lemma run_after lm clock s :
  after (run lm clock) s = s \/
  exists now rest l r,
    clock = now :: rest /\
    run_loop lm rest l s = (r, after (run lm clock) s).
Proof.
  unfold after. destruct (run lm clock s) as [r s'] eqn:H. cbn [snd].
  destruct clock as [|now rest]; unfold run in H.
  - unfold ret in H. injection H as _ <-. left. reflexivity.
  - apply bind_readonly in H; [|apply run_enter_readonly].
    destruct H as [[-> _] | (l & _ & H)]; [left; reflexivity|].
    rewrite bind_unfold in H.
    destruct (run_loop lm rest l s) as [r1 s1] eqn:E.
    assert (s' = s1) as -> by (destruct r1; unfold ret in H; congruence).
    right. exists now, rest, l, r1. split; [reflexivity | exact E].
Qed.

(** The thread body assigns no attribute of the instance: of the attribute
    dictionary only the binding of [outputs] can differ after [run], however
    long it runs and whether it ends by the stop flag or by an exception.
    In particular it never sets or clears [_exit] itself. *)
Theorem run_writes_outputs_only lm clock s k :
  k <> "outputs" -> dict (after (run lm clock) s) !! k = dict s !! k.
Proof.
  intros Hk.
  destruct (run_after lm clock s) as [-> | (now & rest & l & r & _ & E)]; [reflexivity|].
  apply run_loop_trace in E. destruct E as [Hd _]. apply Hd. exact Hk.
Qed.

Lemma run_writes_outputs_only_witness :
  "_exit" <> "outputs" /\
  dict (after (run sample_libm [Fin 0; Fin (1 # 4000); Fin (3 # 4000)])
          (generator sample_libm SQUARE)) !! "_exit"
  = dict (generator sample_libm SQUARE) !! "_exit".
Proof.
  split; [discriminate|].
  apply (run_writes_outputs_only sample_libm [Fin 0; Fin (1 # 4000); Fin (3 # 4000)]
           (generator sample_libm SQUARE) "_exit").
  discriminate.
Defined.


Example run_logs_samples_example :
  log (after (run sample_libm [Fin 0; Fin (1 # 4000); Fin (3 # 4000)])
         (generator sample_libm SQUARE))
  = [Publish (Fin 5) (Fin 0); Sleep (Fin (1 # 500000));
     Publish (Fin 0) (Fin 0); Sleep (Fin (1 # 500000))].
Proof. vm_compute. reflexivity. Qed.

(** After [kill] the loop body does not run again: [run], entered on an
    instance whose stop flag [kill] has set, leaves the instance and the log
    as they were, whatever the clock. *)
Theorem kill_stops_run lm clock s :
  after (run lm clock) (after kill s) = after kill s.
Proof.
  unfold after at 1. destruct (run lm clock (after kill s)) as [r s'] eqn:H. cbn [snd].
  destruct clock as [|now rest]; unfold run in H.
  - unfold ret in H. injection H as _ <-. reflexivity.
  - apply bind_readonly in H; [|apply run_enter_readonly].
    destruct H as [[-> _] | (l & _ & H)]; [reflexivity|].
    rewrite bind_unfold in H.
    assert (run_loop lm rest l (after kill s) = (Ok l, after kill s)) as E.
    { destruct rest as [|next rest]; [reflexivity|].
      cbn [run_loop]. rewrite bind_unfold. unfold getattr, after, kill, setattr. cbn [snd dict].
      rewrite lookup_insert_eq. reflexivity. }
    rewrite E in H. unfold ret in H. injection H as _ <-. reflexivity.
Qed.

(** ** The knobs *)

Lemma percent_in_range p q :
  num_of p = Some (Fin q) -> 0 <= q -> q <= 100 ->
  py_lt p (AInt 0) = Ok false /\ py_gt p (AInt 100) = Ok false.
Proof.
  intros Hp H0 H100. unfold py_lt, py_gt, py_compare, Float.gt. rewrite Hp. simpl num_of.
  split; f_equal; apply lt_Fin_false; assumption.
Qed.

(** The instance that [set_frequency] leaves when the band is bound to a
    pair of numbers. *)
Lemma set_frequency_state v p q lo hi x y s :
  int_or_float v = Some p -> num_of p = Some (Fin q) -> 0 <= q -> q <= 100 ->
  dict s !! "_frequency_range" = Some (VTuple [lo; hi]) ->
  num_of lo = Some x -> num_of hi = Some y ->
  set_frequency v s
  = (Ok tt,
     {| dict :=
          <["_time_period" :=
              VAtom (AFloat (period_of (Float.add x (Float.mul (Float.sub y x) (Fin q)))))]>
            (<["_frequency" :=
                 VAtom (AFloat (Float.add x (Float.mul (Float.sub y x) (Fin q))))]> (dict s));
        log := log s |}).
Proof.
  intros Ef Hp H0 H100 Hr Hx Hy.
  destruct (percent_in_range p q Hp H0 H100) as [Hlt Hgt].
  unfold set_frequency. rewrite Ef.
  rewrite (bind_Ok_eq _ _ s false s) by (rewrite Hlt; reflexivity).
  rewrite (bind_Ok_eq _ _ s false s) by (rewrite Hgt; reflexivity).
  cbv beta iota.
  rewrite (bind_Ok_eq _ _ s _ s (getattr_lookup _ _ _ Hr)).
  rewrite (bind_Ok_eq _ _ s lo s) by reflexivity.
  rewrite (bind_Ok_eq _ _ s _ s (getattr_lookup _ _ _ Hr)).
  rewrite (bind_Ok_eq _ _ s hi s) by reflexivity.
  rewrite (bind_Ok_eq _ _ s _ s (getattr_lookup _ _ _ Hr)).
  rewrite (bind_Ok_eq _ _ s lo s) by reflexivity.
  rewrite (bind_Ok_eq _ _ s (Float.sub y x) s)
    by (unfold py_arith; rewrite Hx, Hy; reflexivity).
  rewrite (bind_Ok_eq _ _ s (Float.mul (Float.sub y x) (Fin q)) s)
    by (unfold py_arith; rewrite Hp; reflexivity).
  rewrite (bind_Ok_eq _ _ s (Float.add x (Float.mul (Float.sub y x) (Fin q))) s)
    by (unfold py_arith; rewrite Hx; reflexivity).
  apply store_period_returns.
Qed.



Example set_frequency_half_way :
  outcome frequency (after (set_frequency (AInt 50)) (generator sample_libm SIN))
    = Ok (Fin 451000) /\
  outcome frequency (after (set_frequency (AFloat (Fin (1 # 2)))) (generator sample_libm SIN))
    = Ok (Fin 5500).
Proof. vm_compute. split; reflexivity. Qed.

Lemma knob_value a b q :
  Float.add (Fin a) (Float.mul (Float.sub (Fin b) (Fin a)) (Fin q))
  = Float.fin (a + (b - a) * q).
Proof.
  unfold Float.sub, Float.add, Float.neg, Float.mul. simpl.
  apply fin_proper. rewrite !Qred_correct. ring.
Qed.

(** A pair of numbers within the bounds, low first, is stored as given,
    whether it comes as a list or as a tuple. *)
Lemma set_frequency_range_within (tuple : bool) lo hi a b s :
  num_of lo = Some (Fin a) -> num_of hi = Some (Fin b) ->
  1 # 10 <= a -> a <= b -> b <= 1000000000 ->
  after (set_frequency_range (if tuple then VTuple [lo; hi] else VList [lo; hi])) s
  = {| dict := <["_frequency_range" := VTuple [lo; hi]]> (dict s); log := log s |}.
Proof.
  intros Hx Hy Hlo Hle Hhi.
  apply lt_Fin_false in Hlo. apply lt_Fin_false in Hle. apply lt_Fin_false in Hhi.
  unfold after, set_frequency_range. destruct tuple; simpl;
    unfold py_gt, py_lt, py_compare, Float.gt, bind, lift; simpl;
    rewrite Hx, Hy; simpl; rewrite Hle; simpl; rewrite Hlo; simpl; rewrite Hy; simpl;
    change (Float.lt (Float.of_Z 1000000000) (Fin b))
      with (Float.lt (Fin 1000000000) (Fin b));
    rewrite Hhi; reflexivity.
Qed.



Example knob_example :
  outcome frequency
    (after (set_frequency (AInt 100))
       (after (set_frequency_range (VList [AInt 10; AInt 100])) blank))
  = Ok (Fin 9010).
Proof. vm_compute. reflexivity. Qed.

Lemma pow10_at_zero pow10 z :
  z == 0 ->
  Float.div (Float.neg (Fin z)) (Float.of_Z 20) = Ok (Float.fin (Qred (- z) / inject_Z 20)) /\
  py_pow10 pow10 (Float.fin (Qred (- z) / inject_Z 20)) = Fin 1.
Proof.
  intros Hz. split; [reflexivity|].
  unfold py_pow10, Float.fin.
  assert (Qeq_bool (Qred (Qred (- z) / inject_Z 20)) 0 = true) as ->; [|reflexivity].
  apply Qeq_bool_iff. rewrite !Qred_correct, Hz. reflexivity.
Qed.

(** With no attenuation the amplitude knob is linear in its argument:
    when the attenuation stored is zero, [set_amplitude(p)] for p between 0
    and 100 returns with the amplitude p / 10 volts (0 V at 0, AMPL_MAX at
    100), whatever the platform's power function is elsewhere, and leaves
    the attenuation as it was. *)
Theorem set_amplitude_unattenuated pow10 v p q a z s :
  int_or_float v = Some p -> num_of p = Some (Fin q) -> 0 <= q -> q <= 100 ->
  dict s !! "_attenuation" = Some a -> py_float a = Ok (Fin z) -> z == 0 ->
  outcome (set_amplitude pow10 v) s = Ok tt /\
  outcome amplitude (after (set_amplitude pow10 v) s) = Ok (Float.fin (q / 10)) /\
  dict (after (set_amplitude pow10 v) s) !! "_attenuation" = Some a.
Proof.
  intros Ef Hp H0 H100 Ha Hf Hz.
  destruct (percent_in_range p q Hp H0 H100) as [Hlt Hgt].
  destruct (pow10_at_zero pow10 z Hz) as [Hdiv Hpow].
  assert (set_amplitude pow10 v s
          = (Ok tt, {| dict := <["_amplitude" := VAtom (AFloat (Float.fin (q / 10)))]> (dict s);
                       log := log s |})) as Hrun.
  { unfold set_amplitude. rewrite Ef.
    rewrite (bind_Ok_eq _ _ s false s) by (rewrite Hlt; reflexivity).
    rewrite (bind_Ok_eq _ _ s false s) by (rewrite Hgt; reflexivity).
    cbv beta iota.
    rewrite (bind_Ok_eq _ _ s _ s (getattr_lookup _ _ _ Ha)).
    rewrite (bind_Ok_eq _ _ s (Fin z) s) by (rewrite Hf; reflexivity).
    rewrite (bind_Ok_eq _ _ s _ s) by (rewrite Hdiv; reflexivity).
    rewrite Hpow.
    rewrite (bind_Ok_eq _ _ s (Fin 10) s) by reflexivity.
    rewrite (bind_Ok_eq _ _ s (Float.fin (10 * q)) s)
      by (unfold py_arith; rewrite Hp; reflexivity).
    rewrite (bind_Ok_eq _ _ s (Float.fin (Qred (10 * q) * (1 # 100))) s) by reflexivity.
    rewrite (bind_Ok_eq _ _ s (Float.fin (0 + Qred (Qred (10 * q) * (1 # 100)))) s)
      by reflexivity.
    replace (Float.fin (0 + Qred (Qred (10 * q) * (1 # 100)))) with (Float.fin (q / 10));
      [reflexivity|].
    apply fin_proper. rewrite !Qred_correct. field. }
  unfold outcome, after. rewrite Hrun. cbn [fst snd dict].
  split; [reflexivity|]. split.
  - unfold amplitude, bind, getattr, lift. cbn [dict]. rewrite lookup_insert_eq. reflexivity.
  - rewrite lookup_insert_ne by discriminate. exact Ha.
Qed.

Lemma set_amplitude_unattenuated_witness :
  (int_or_float (AInt 100) = Some (AInt 100) /\ num_of (AInt 100) = Some (Fin 100) /\
   0 <= 100 /\ 100 <= 100 /\
   dict (after (set_attenuation (AInt 0)) (generator sample_libm SIN)) !! "_attenuation"
     = Some (VAtom (AInt 0)) /\
   py_float (AInt 0) = Ok (Fin 0) /\ 0 == 0) /\
  outcome (set_amplitude sample_pow10 (AInt 100))
    (after (set_attenuation (AInt 0)) (generator sample_libm SIN)) = Ok tt /\
  outcome amplitude
    (after (set_amplitude sample_pow10 (AInt 100))
       (after (set_attenuation (AInt 0)) (generator sample_libm SIN)))
    = Ok (Float.fin (100 / 10)) /\
  dict (after (set_amplitude sample_pow10 (AInt 100))
          (after (set_attenuation (AInt 0)) (generator sample_libm SIN))) !! "_attenuation"
    = Some (VAtom (AInt 0)).
Proof.
  assert (0 <= 100 /\ 100 <= 100) as [H0 H100] by (split; discriminate).
  assert (dict (after (set_attenuation (AInt 0)) (generator sample_libm SIN)) !! "_attenuation"
          = Some (VAtom (AInt 0))) as Ha by (vm_compute; reflexivity).
  split; [repeat split; solve [reflexivity | assumption]|].
  exact (set_amplitude_unattenuated sample_pow10 (AInt 100) (AInt 100) 100 (AInt 0) 0
           (after (set_attenuation (AInt 0)) (generator sample_libm SIN))
           eq_refl eq_refl H0 H100 Ha eq_refl (Qeq_refl 0)).
Defined.

(** ** Construction *)

Lemma set_type_int z s :
  (0 <= z <= 5)%Z ->
  set_type (AInt z) s = (Ok tt, {| dict := <["_type" := VAtom (AInt z)]> (dict s); log := log s |}).
Proof.
  intros Hz.
  assert (z = 0 \/ z = 1 \/ z = 2 \/ z = 3 \/ z = 4 \/ z = 5)%Z as H by lia.
  destruct H as [->|[->|[->|[->|[->| ->]]]]]; reflexivity.
Qed.

(** What [set_amplitude_exact] does to the instance on a finite number: it
    touches the amplitude and the attenuation only, and returns exactly when
    the number is positive. *)
Lemma set_amplitude_exact_run lm a q s :
  int_or_float (VAtom a) = Some a -> num_of a = Some (Fin q) ->
  (forall k, k <> "_amplitude" -> k <> "_attenuation" ->
     dict (after (set_amplitude_exact lm (VAtom a)) s) !! k = dict s !! k) /\
  log (after (set_amplitude_exact lm (VAtom a)) s) = log s /\
  if Qle_bool q 0
  then outcome (set_amplitude_exact lm (VAtom a)) s = Raise ValueError
  else outcome (set_amplitude_exact lm (VAtom a)) s = Ok tt /\
       dict (after (set_amplitude_exact lm (VAtom a)) s) !! "_amplitude"
         = Some (VAtom (AFloat (Fin q))).
Proof.
  intros Ef Hq.
  unfold outcome, after, set_amplitude_exact. rewrite Ef.
  unfold py_le, py_ge, py_compare, py_float. simpl value_num. rewrite Hq. simpl num_of.
  pose proof (Qle_bool_div10 q) as Hd.
  unfold bind, lift, when, ret, setattr, math_log10. cbv beta iota.
  change (Float.div (Fin q) (Float.of_Z 10)) with (@Ok pyfloat (Fin (Qred (q / inject_Z 10)))).
  cbv beta iota. rewrite Hd.
  destruct (Qle_bool q 0);
    destruct (Float.le (Fin q) (Fin 0)), (Float.ge (Fin q) (Fin 10)); cbn [fst snd dict log];
    (split; [intros k Hk1 Hk2; rewrite ?lookup_insert_ne by congruence; reflexivity|]);
    (split; [reflexivity|]); try reflexivity;
    (split; [reflexivity|]); apply lookup_insert_eq.
Qed.

Lemma init_prefix lm typ freq ampl z :
  typ = VAtom (AInt z) -> (0 <= z <= 5)%Z ->
  __init__ lm typ freq ampl blank
  = (set_frequency_exact freq;;
     setattr "_amplitude" (AFloat (Fin 1));;
     set_amplitude_exact lm ampl;;
     setattr "_exit" (ABool false))
      {| dict :=
           <["_frequency" := VAtom (AFloat (Fin 1000))]>
             (<["_type" := VAtom (AInt z)]>
                (<["_mod_type" := VAtom (AInt 0)]>
                   (<["mod_ip" := VBus (Bus_set_analog (Bus_new 2))]>
                      (<["_offset" := VAtom (AFloat (Fin 0))]>
                         (<["outputs" := VBus (Bus_set_analog (Bus_new 2))]>
                            (<["enable" := VBus (Bus_new 1)]>
                               (<["daemon" := VAtom (ABool true)]> ∅)))))));
         log := [] |}.
Proof.
  intros -> Hz. unfold __init__.
  do 6 (erewrite bind_Ok_eq; [|reflexivity]; cbn [dict log]).
  erewrite bind_Ok_eq; [|apply set_type_int; exact Hz]. cbn [dict log].
  erewrite bind_Ok_eq; [|reflexivity]. reflexivity.
Qed.

(** The instance on which [__init__] calls [set_amplitude_exact]. *)
Lemma init_before_amplitude lm typ z freq f x ampl :
  typ = VAtom (AInt z) -> (0 <= z <= 5)%Z ->
  int_or_float freq = Some f -> num_of f = Some x ->
  exists d,
    __init__ lm typ freq ampl blank
    = (set_amplitude_exact lm ampl;; setattr "_exit" (ABool false)) {| dict := d; log := [] |} /\
    d !! "_type" = Some (VAtom (AInt z)) /\
    d !! "_frequency" = Some (VAtom (AFloat x)) /\
    d !! "_time_period" = Some (VAtom (AFloat (period_of x))) /\
    d !! "_offset" = Some (VAtom (AFloat (Fin 0))) /\
    d !! "_mod_type" = Some (VAtom (AInt 0)) /\
    d !! "_exit" = None /\
    d !! "_frequency_range"
      = match band_at x with Some (lo, hi) => Some (VTuple [lo; hi]) | None => None end.
Proof.
  intros Ht Hz Ef Hx. destruct (int_or_float_num freq f Ef) as [-> _].
  rewrite (init_prefix lm typ (VAtom f) ampl z Ht Hz).
  erewrite bind_Ok_eq; [|apply (set_frequency_exact_state f x _ Ef Hx)].
  erewrite bind_Ok_eq; [|reflexivity]. cbn [dict log].
  eexists. split; [reflexivity|].
  destruct (band_at x) as [[lo hi]|];
    repeat split;
    repeat (rewrite lookup_insert_eq || rewrite lookup_insert_ne by discriminate);
    reflexivity.
Qed.





(** ** The bus inputs *)

Lemma emit_enable_unbound e : preserves enable_unbound (emit e).
Proof. intros s H. exact H. Qed.

#[local] Hint Resolve emit_enable_unbound : py.

Lemma run_iteration_enable_unbound lm now l :
  preserves enable_unbound (run_iteration lm now l).
Proof.
  unfold run_iteration, SAMPLING_TIME_INTERVAL, read_terminal, modulated_frequency,
    synthesize, modulate, publish, sleep, bound, phase, type.
  auto 60 with py.
Qed.

Lemma run_loop_enable_unbound lm clock :
  forall l, preserves enable_unbound (run_loop lm clock l).
Proof.
  induction clock as [|now rest IH]; intros l; simpl; [apply preserves_ret|].
  apply preserves_bind; [apply preserves_getattr|]. intros stop.
  apply preserves_if; [apply preserves_ret|].
  apply preserves_bind; [apply run_iteration_enable_unbound | exact IH].
Qed.


Lemma setattr_holds name v k w :
  name <> k -> preserves (holds k w) (setattr name v).
Proof.
  intros Hne s H. unfold holds, setattr in *. simpl.
  rewrite lookup_insert_ne by exact Hne. exact H.
Qed.

#[local] Hint Extern 1 (preserves (holds _ _) (setattr _ _)) =>
  apply setattr_holds; discriminate : py.

(** The two analog buses that [__init__] creates are bound in every
    instance it leaves, whether it returns or raises. *)
Lemma init_buses lm typ freq ampl :
  dict (snd (construct lm typ freq ampl)) !! "outputs"
    = Some (VBus (Bus_set_analog (Bus_new 2))) /\
  dict (snd (construct lm typ freq ampl)) !! "mod_ip"
    = Some (VBus (Bus_set_analog (Bus_new 2))).
Proof.
  assert (forall k w,
            k <> "_mod_type" -> k <> "_type" -> k <> "_frequency" ->
            k <> "_frequency_range" -> k <> "_time_period" -> k <> "_amplitude" ->
            k <> "_attenuation" -> k <> "_exit" ->
            preserves (holds k w)
              (set_modulation_type (AInt 0);; set_type typ;;
               setattr "_frequency" (AFloat (Fin 1000));; set_frequency_exact freq;;
               setattr "_amplitude" (AFloat (Fin 1));; set_amplitude_exact lm ampl;;
               setattr "_exit" (ABool false))) as Hrest.
  { intros k w H1 H2 H3 H4 H5 H6 H7 H8.
    assert (forall name v, name <> k -> preserves (holds k w) (setattr name v)) as Hset
      by (intros; apply setattr_holds; assumption).
    unfold set_modulation_type, set_type, set_frequency_exact, set_amplitude_exact.
    repeat first
      [ apply preserves_bind; [|intros ?] | apply preserves_if | apply preserves_when
      | apply preserves_lift | apply preserves_ret | apply preserves_raise
      | apply preserves_getattr | apply Hset; congruence
      | match goal with |- preserves _ (match ?x with _ => _ end) => destruct x end ]. }
  unfold construct, __init__.
  do 5 (erewrite bind_Ok_eq; [|reflexivity]; cbn [dict log]).
  split; apply Hrest; try discriminate; unfold holds; cbn [dict];
    repeat (rewrite lookup_insert_eq || rewrite lookup_insert_ne by discriminate);
    reflexivity.
Qed.

(** On every instance that the constructor leaves, a bus of the wrong shape
    is turned down before the link registry is called, and the instance
    stays as it was: [set_outputs] raises for a bus whose width is not 2,
    [set_modulation_input] for a bus that is not analog or whose width is
    not 2, and both for a value that is not a bus. *)
Theorem wrong_bus_is_rejected lm typ freq ampl remove_link add_link v :
  match v with
  | VBus b =>
      ((width b =? 2)%nat = false ->
       set_outputs remove_link add_link v (snd (construct lm typ freq ampl))
       = (Raise (Exception "ERROR: Output width mismatch."),
          snd (construct lm typ freq ampl))) /\
      (analog b = false ->
       set_modulation_input remove_link add_link v (snd (construct lm typ freq ampl))
       = (Raise (Exception "ERROR: Invalid modulation input. The modulation input must be 2 connector analog Bus."),
          snd (construct lm typ freq ampl))) /\
      (analog b = true -> (width b =? 2)%nat = false ->
       set_modulation_input remove_link add_link v (snd (construct lm typ freq ampl))
       = (Raise (Exception "ERROR: The bus must be a 2 connector Bus."),
          snd (construct lm typ freq ampl)))
  | _ =>
      set_outputs remove_link add_link v (snd (construct lm typ freq ampl))
      = (Raise (Exception "ERROR: Invalid output Bus"), snd (construct lm typ freq ampl)) /\
      set_modulation_input remove_link add_link v (snd (construct lm typ freq ampl))
      = (Raise (Exception "ERROR: Invalid modulation input. The modulation input must be 2 connector analog Bus."),
         snd (construct lm typ freq ampl))
  end.
Proof.
  destruct (init_buses lm typ freq ampl) as [Ho Hm].
  destruct v as [a|xs|xs|b]; try (split; reflexivity).
  unfold set_outputs, set_modulation_input, width_of.
  repeat split.
  - intros Hw. rewrite !bind_unfold. unfold getattr. rewrite Ho. unfold ret.
    cbn [width Bus_set_analog Bus_new]. rewrite Hw. reflexivity.
  - intros ->. reflexivity.
  - intros -> Hw. cbn [negb]. rewrite !bind_unfold. unfold getattr. rewrite Hm. unfold ret.
    cbn [width Bus_set_analog Bus_new]. rewrite Hw. reflexivity.
Qed.

(** ** Waveforms without frequency modulation *)

Lemma floor_bounds t p :
  0 < p ->
  0 <= t - p * inject_Z (Qfloor (t / p)) /\ t - p * inject_Z (Qfloor (t / p)) < p.
Proof.
  intros Hp.
  pose proof (Qfloor_le (t / p)) as H1.
  pose proof (Qlt_floor (t / p)) as H2. rewrite inject_Z_plus in H2.
  assert (t == t / p * p) as Ht by (field; intros E; rewrite E in Hp; discriminate Hp).
  set (y := t / p) in *. set (F := inject_Z (Qfloor y)) in *.
  change (inject_Z 1) with 1 in H2.
  split; rewrite Ht; nra.
Qed.

(** [t % p] for a positive finite period. *)
Lemma mod_positive t p :
  0 < p ->
  exists c, Float.mod_ (Fin t) (Fin p) = Ok (Fin c) /\ 0 <= c /\ c < p.
Proof.
  intros Hp. exists (Qred (t - p * inject_Z (Qfloor (t / p)))).
  destruct (floor_bounds t p Hp) as [H0 H1].
  split; [|split; rewrite Qred_correct; assumption].
  unfold Float.mod_, Float.is_zero.
  assert (Qeq_bool p 0 = false) as ->; [|reflexivity].
  destruct (Qeq_bool p 0) eqn:E; [|reflexivity].
  apply Qeq_bool_iff in E. rewrite E in Hp. discriminate Hp.
Qed.

Lemma synthesize_ramp lm s freq c p v :
  0 < p ->
  dict s !! "_type" = Some (VAtom RAMP) ->
  synthesize lm freq (AFloat (Fin p)) (Fin c) v s = (Ok (Some (Float.fin (c / p))), s).
Proof.
  intros Hp Ht.
  assert (Qeq_bool p 0 = false) as Hz.
  { destruct (Qeq_bool p 0) eqn:E; [|reflexivity].
    apply Qeq_bool_iff in E. rewrite E in Hp. discriminate Hp. }
  assert (phase (Fin c) (AFloat (Fin p)) s = (Ok (Float.fin (c / p)), s)) as Hph.
  { unfold phase, bind, lift, py_float, Float.div, Float.is_zero. simpl. rewrite Hz.
    reflexivity. }
  apply (type_lookup s 2) in Ht. eval_synthesize Ht Hph. reflexivity.
Qed.

Lemma synthesize_square lm s freq c p v :
  dict s !! "_type" = Some (VAtom SQUARE) ->
  synthesize lm freq (AFloat (Fin p)) (Fin c) v s
  = (Ok (Some (if Float.lt (Fin c) (Float.fin (p / 2)) then Fin 1 else Fin 0)), s).
Proof.
  intros Ht. apply (type_lookup s 1) in Ht.
  assert (lift (py_float (AFloat (Fin p))) s = (Ok (Fin p), s)) as H1 by reflexivity.
  assert (lift (Float.div (Fin p) (Float.of_Z 2)) s = (Ok (Float.fin (p / 2)), s)) as H2
    by reflexivity.
  unfold synthesize, bind, bound.
  repeat first [rewrite Ht | rewrite H1 | rewrite H2
               | progress eval_tests | progress unfold ret
               | progress cbn [orb negb] | progress cbv beta iota].
  reflexivity.
Qed.

(** Without frequency modulation, on a generator with a positive finite
    period p, at the clock reading t: the time offset c = t % p lies in
    [0, p); the raw Ramp voltage is the phase fraction c / p, at least 0
    and below 1; the raw Square voltage is 1 while c is below half the
    period and 0 from there on.  (Arithmetic without rounding.) *)
Theorem ramp_and_square_over_period lm s freq t p v :
  0 < p ->
  exists c,
    Float.mod_ (Fin t) (Fin p) = Ok (Fin c) /\ 0 <= c /\ c < p /\
    (dict s !! "_type" = Some (VAtom RAMP) ->
     exists x,
       synthesize lm freq (AFloat (Fin p)) (Fin c) v s = (Ok (Some (Fin x)), s) /\
       x == c / p /\ 0 <= x /\ x < 1) /\
    (dict s !! "_type" = Some (VAtom SQUARE) ->
     synthesize lm freq (AFloat (Fin p)) (Fin c) v s
     = (Ok (Some (if Qlt_le_dec (2 * c) p then Fin 1 else Fin 0)), s)).
Proof.
  intros Hp. destruct (mod_positive t p Hp) as (c & Hc & H0 & H1).
  exists c. split; [exact Hc|]. split; [exact H0|]. split; [exact H1|]. split.
  - intros Ht. exists (Qred (c / p)).
    split; [apply (synthesize_ramp lm s freq c p v Hp Ht)|].
    rewrite Qred_correct. split; [reflexivity|]. split.
    + apply Qle_shift_div_l; [exact Hp | lra].
    + apply Qlt_shift_div_r; [exact Hp | lra].
  - intros Ht. rewrite (synthesize_square lm s freq c p v Ht).
    destruct (Qlt_le_dec (2 * c) p) as [H | H].
    + assert (Float.lt (Fin c) (Float.fin (p / 2)) = true) as ->; [|reflexivity].
      apply lt_Fin. rewrite Qred_correct. apply Qlt_shift_div_l; [reflexivity | lra].
    + assert (Float.lt (Fin c) (Float.fin (p / 2)) = false) as ->; [|reflexivity].
      apply lt_Fin_false. rewrite Qred_correct. apply Qle_shift_div_r; [reflexivity | lra].
Qed.

Lemma ramp_and_square_over_period_witness :
  0 < 1 # 1000 /\
  exists c,
    Float.mod_ (Fin (7 # 4000)) (Fin (1 # 1000)) = Ok (Fin c) /\ 0 <= c /\ c < 1 # 1000 /\
    (dict (generator sample_libm RAMP) !! "_type" = Some (VAtom RAMP) ->
     exists x,
       synthesize sample_libm (AInt 1000) (AFloat (Fin (1 # 1000))) (Fin c) None
         (generator sample_libm RAMP)
       = (Ok (Some (Fin x)), generator sample_libm RAMP) /\
       x == c / (1 # 1000) /\ 0 <= x /\ x < 1) /\
    (dict (generator sample_libm RAMP) !! "_type" = Some (VAtom SQUARE) ->
     synthesize sample_libm (AInt 1000) (AFloat (Fin (1 # 1000))) (Fin c) None
       (generator sample_libm RAMP)
     = (Ok (Some (if Qlt_le_dec (2 * c) (1 # 1000) then Fin 1 else Fin 0)),
        generator sample_libm RAMP)).
Proof.
  assert (0 < 1 # 1000) as Hp by reflexivity.
  split; [exact Hp|].
  exact (ramp_and_square_over_period sample_libm (generator sample_libm RAMP) (AInt 1000)
           (7 # 4000) (1 # 1000) None Hp).
Defined.

Example ramp_example :
  Float.mod_ (Fin (7 # 4000)) (Fin (1 # 1000)) = Ok (Fin (3 # 4000)) /\
  synthesize sample_libm (AInt 1000) (AFloat (Fin (1 # 1000))) (Fin (3 # 4000)) None
    (generator sample_libm RAMP)
  = (Ok (Some (Fin (3 # 4))), generator sample_libm RAMP).
Proof. vm_compute. split; reflexivity. Qed.

(** ** Frequencies that leave no usable period *)

Lemma mod_nan now : Float.mod_ now NaN = Ok NaN.
Proof. destruct now; reflexivity. Qed.

Lemma run_iteration_nan lm now l s :
  dict s !! "_time_period" = Some (VAtom (AFloat NaN)) ->
  run_iteration lm now l s
  = (Ok {| cur_time_offset := NaN; old_time_offset := old_time_offset l;
           voltage := voltage l |}, s).
Proof.
  intros Hp. unfold run_iteration.
  rewrite (bind_Ok_eq _ _ s _ s (getattr_lookup _ _ _ Hp)).
  rewrite (bind_Ok_eq _ _ s NaN s) by reflexivity.
  rewrite (bind_Ok_eq _ _ s NaN s) by (rewrite mod_nan; reflexivity).
  rewrite (bind_Ok_eq _ _ s NaN s)
    by (unfold SAMPLING_TIME_INTERVAL;
        rewrite (bind_Ok_eq _ _ s _ s (getattr_lookup _ _ _ Hp)); reflexivity).
  assert (forall x, Float.ge x NaN = false) as -> by (intros x; destruct x; reflexivity).
  reflexivity.
Qed.

Lemma run_loop_nan lm clock :
  forall l s, dict s !! "_time_period" = Some (VAtom (AFloat NaN)) ->
    snd (run_loop lm clock l s) = s.
Proof.
  induction clock as [|now rest IH]; intros l s Hp; [reflexivity|].
  cbn [run_loop]. rewrite bind_unfold. unfold getattr.
  destruct (dict s !! "_exit") as [stop|]; [|reflexivity].
  destruct (py_bool stop); [reflexivity|].
  rewrite (bind_Ok_eq _ _ s _ s (run_iteration_nan lm now l s Hp)).
  apply IH. exact Hp.
Qed.

(** A frequency without a usable period stops the output for good.  After
    [set_frequency_exact] with an infinite frequency the period is 0, and
    [run] raises [ZeroDivisionError] at its first statement, the thread
    ending before anything is published.  After [set_frequency_exact(nan)]
    the period is nan, no comparison with it holds, and [run] goes round
    the loop without ever publishing or sleeping. *)
Theorem run_without_usable_period lm now clock (positive : bool) s :
  run lm (now :: clock) (after (set_frequency_exact (AFloat (Float.inf positive))) s)
  = (Raise ZeroDivisionError, after (set_frequency_exact (AFloat (Float.inf positive))) s) /\
  after (run lm clock) (after (set_frequency_exact (AFloat NaN)) s)
  = after (set_frequency_exact (AFloat NaN)) s.
Proof.
  split.
  - assert (dict (after (set_frequency_exact (AFloat (Float.inf positive))) s) !! "_time_period"
            = Some (VAtom (AFloat (Fin 0)))) as Hp.
    { unfold after.
      rewrite (set_frequency_exact_state (AFloat (Float.inf positive)) (Float.inf positive) s
                 eq_refl eq_refl).
      cbn [snd dict]. rewrite lookup_insert_eq. destruct positive; reflexivity. }
    unfold run, run_enter.
    rewrite !bind_unfold, (getattr_lookup _ _ _ Hp). reflexivity.
  - assert (dict (after (set_frequency_exact (AFloat NaN)) s) !! "_time_period"
            = Some (VAtom (AFloat NaN))) as Hp.
    { unfold after. rewrite (set_frequency_exact_state (AFloat NaN) NaN s eq_refl eq_refl).
      cbn [snd dict]. rewrite lookup_insert_eq. reflexivity. }
    set (s1 := after (set_frequency_exact (AFloat NaN)) s) in *.
    unfold after. destruct clock as [|t rest]; [reflexivity|].
    unfold run, run_enter.
    rewrite (bind_unfold (let* p := getattr "_time_period" in _)).
    rewrite (bind_Ok_eq _ _ s1 _ s1 (getattr_lookup _ _ _ Hp)).
    rewrite (bind_Ok_eq _ _ s1 NaN s1) by reflexivity.
    rewrite (bind_Ok_eq _ _ s1 NaN s1) by (rewrite mod_nan; reflexivity).
    rewrite (bind_Ok_eq _ _ s1 _ s1 (getattr_lookup _ _ _ Hp)).
    rewrite (bind_Ok_eq _ _ s1 NaN s1) by reflexivity.
    unfold ret at 1. cbv beta iota. rewrite bind_unfold.
    pose proof (run_loop_nan lm rest
                  {| cur_time_offset := NaN; old_time_offset := Float.sub NaN NaN;
                     voltage := None |} s1 Hp) as Hloop.
    destruct (run_loop lm rest _ s1) as [[l'|e] s2]; cbn [snd] in *; subst s2; reflexivity.
Qed.

(** ** The clock enters through its remainder *)

Lemma floor_unique y m :
  inject_Z m <= y -> y < inject_Z (m + 1) -> Qfloor y = m.
Proof.
  intros Hlo Hhi.
  assert (m <= Qfloor y)%Z as H1.
  { rewrite <- (Qfloor_Z m). apply Qfloor_resp_le. exact Hlo. }
  assert (Qfloor y < m + 1)%Z as H2.
  { destruct (Z_lt_le_dec (Qfloor y) (m + 1)) as [H | H]; [exact H|].
    exfalso. rewrite Zle_Qle in H. pose proof (Qfloor_le y). lra. }
  lia.
Qed.

Lemma floor_shift x k : Qfloor (x + inject_Z k) = (Qfloor x + k)%Z.
Proof.
  apply floor_unique.
  - rewrite inject_Z_plus. pose proof (Qfloor_le x). lra.
  - pose proof (Qlt_floor x) as H. rewrite !inject_Z_plus in *. lra.
Qed.

(** A clock reading moved by a whole number of periods has the same
    remainder. *)
Lemma mod_shift t k p :
  ~ p == 0 ->
  Float.mod_ (Fin (t + inject_Z k * p)) (Fin p) = Float.mod_ (Fin t) (Fin p).
Proof.
  intros Hp. unfold Float.mod_. destruct (Float.is_zero (Fin p)); [reflexivity|].
  f_equal. apply fin_proper.
  assert ((t + inject_Z k * p) / p == t / p + inject_Z k) as E by (field; exact Hp).
  rewrite E, floor_shift, inject_Z_plus. ring.
Qed.

Lemma run_iteration_shift lm t k p l s :
  dict s !! "_time_period" = Some (VAtom (AFloat (Fin p))) -> ~ p == 0 ->
  run_iteration lm (Fin (t + inject_Z k * p)) l s = run_iteration lm (Fin t) l s.
Proof.
  intros Hs Hp. unfold run_iteration.
  rewrite !(bind_Ok_eq _ _ s _ s (getattr_lookup _ _ _ Hs)).
  rewrite !(bind_Ok_eq (lift (py_float _)) _ s (Fin p) s) by reflexivity.
  rewrite (mod_shift t k p Hp). reflexivity.
Qed.

Lemma run_loop_shift lm k p ts :
  ~ p == 0 ->
  forall l s, dict s !! "_time_period" = Some (VAtom (AFloat (Fin p))) ->
    run_loop lm (map (fun t => Fin (t + inject_Z k * p)) ts) l s
    = run_loop lm (map Fin ts) l s.
Proof.
  intros Hp. induction ts as [|t rest IH]; intros l s Hs; [reflexivity|].
  cbn [map run_loop]. rewrite !bind_unfold.
  destruct (getattr "_exit" s) as [[stop|e] s0] eqn:Hg; [|reflexivity].
  assert (s0 = s) as -> by (apply (readonly_Ok _ _ _ _ (readonly_getattr "_exit") Hg)).
  destruct (py_bool stop); [reflexivity|].
  rewrite !bind_unfold, (run_iteration_shift lm t k p l s Hs Hp).
  destruct (run_iteration lm (Fin t) l s) as [r s1] eqn:E.
  destruct r as [l1|e]; [|reflexivity].
  apply IH. apply run_iteration_step in E.
  destruct E as [[-> _] | [[-> _] | (b & v & d & l2 & _ & _ & _ & ->)]]; try exact Hs.
  cbn [dict]. rewrite lookup_insert_ne by discriminate. exact Hs.
Qed.

(** The thread body sees the clock only through its remainder by the
    stored period: moving every clock reading by the same whole number of
    periods (forward or back) changes neither the outcome of [run], nor the
    instance it leaves, nor what it logs.  (Arithmetic without rounding.) *)
Theorem run_sees_clock_modulo_period lm ts k p s :
  dict s !! "_time_period" = Some (VAtom (AFloat (Fin p))) -> ~ p == 0 ->
  run lm (map (fun t => Fin (t + inject_Z k * p)) ts) s = run lm (map Fin ts) s.
Proof.
  intros Hs Hp. destruct ts as [|t rest]; [reflexivity|].
  cbn [map]. unfold run, run_enter.
  rewrite !(bind_unfold (let* p := getattr "_time_period" in _)).
  rewrite !(bind_Ok_eq _ _ s _ s (getattr_lookup _ _ _ Hs)).
  rewrite !(bind_Ok_eq (lift (py_float _)) _ s (Fin p) s) by reflexivity.
  rewrite (mod_shift t k p Hp).
  destruct (Float.mod_ (Fin t) (Fin p)) as [cur|e]; [|reflexivity].
  rewrite !(bind_Ok_eq (lift (Ok cur)) _ s cur s) by reflexivity.
  rewrite !(bind_Ok_eq _ _ s _ s (getattr_lookup _ _ _ Hs)).
  rewrite !(bind_Ok_eq (lift (py_float _)) _ s (Fin p) s) by reflexivity.
  unfold ret at 1 3. cbv beta iota. rewrite !bind_unfold.
  rewrite (run_loop_shift lm k p rest Hp _ s Hs). reflexivity.
Qed.

Lemma run_sees_clock_modulo_period_witness :
  (dict (generator sample_libm RAMP) !! "_time_period"
     = Some (VAtom (AFloat (Fin (1 # 1000)))) /\ ~ (1 # 1000) == 0) /\
  run sample_libm
    (map (fun t => Fin (t + inject_Z 1700000000000 * (1 # 1000))) [0; 1 # 4000; 3 # 4000])
    (generator sample_libm RAMP)
  = run sample_libm (map Fin [0; 1 # 4000; 3 # 4000]) (generator sample_libm RAMP).
Proof.
  assert (dict (generator sample_libm RAMP) !! "_time_period"
          = Some (VAtom (AFloat (Fin (1 # 1000))))) as Hs by (vm_compute; reflexivity).
  assert (~ (1 # 1000) == 0) as Hp by discriminate.
  split; [split; [exact Hs | exact Hp]|].
  exact (run_sees_clock_modulo_period sample_libm [0; 1 # 4000; 3 # 4000] 1700000000000
           (1 # 1000) (generator sample_libm RAMP) Hs Hp).
Defined.

Example set_outputs_example :
  set_outputs no_unlink no_link (VBus (Bus_set_analog (Bus_new 2))) (generator sample_libm SIN)
    = (Ok tt, generator sample_libm SIN) /\
  set_outputs no_unlink no_link (VBus (Bus_new 1)) (generator sample_libm SIN)
    = (Raise (Exception "ERROR: Output width mismatch."), generator sample_libm SIN) /\
  set_modulation_input no_unlink no_link (VBus (Bus_new 2)) (generator sample_libm SIN)
    = (Raise (Exception "ERROR: Invalid modulation input. The modulation input must be 2 connector analog Bus."),
       generator sample_libm SIN).
Proof. vm_compute. repeat split; reflexivity. Qed.
